(** * repo2docker: the Docker container engine adapter ([repo2docker/docker.py])

    A shallow embedding of [DockerContainer] and [DockerEngine].  The adapter
    is a thin layer over three external collaborators: the [docker] command
    line client (run as a subprocess), the docker SDK (the API client and its
    container objects) and the host (file system, environment, [PATH]).  The
    collaborators are the fields of the class [External]; the adapter's own
    code is written over them in state-passing style on a [World]. *)

From stdpp Require Import base gmap sets list strings.
From Stdlib Require Import ZArith Lia.

Set Warnings "-register-all,-clear-no-such-hyp".
Open Scope string_scope.
Open Scope Z_scope.

(** ** Python values *)

(** The exceptions that reach the adapter's callers. *)
Inductive exn :=
| RuntimeError (msg : string)
| CalledProcessError (returncode : Z) (cmd : list string)
| OSError (msg : string)
| IsADirectoryError (path : string)
| NotADirectoryError (path : string)
| ReadError (msg : string)
| TypeError (msg : string)
| KeyError (key : string)
| ParseError (msg : string)
| ImageNotFound (msg : string)
| NotFound (msg : string)
| APIError (msg : string)
| DockerException (msg : string)
| ContainerEngineException (msg : string) (cause : string).

(** What the docker API hands back: decoded JSON. *)
Inductive json :=
| JNull
| JBool (b : bool)
| JInt (z : Z)
| JStr (s : string)
| JList (items : list json)
| JObj (fields : list (string * json)).

Fixpoint assoc {A} (k : string) (kvs : list (string * A)) : option A :=
  match kvs with
  | [] => None
  | (k', v) :: rest => if String.eqb k k' then Some v else assoc k rest
  end.

(** [obj[key]] *)
Definition getitem (obj : json) (key : string) : exn + json :=
  match obj with
  | JObj fields =>
      match assoc key fields with
      | Some v => inr v
      | None => inl (KeyError key)
      end
  | _ => inl (TypeError "object is not subscriptable")
  end.

(** ** The host: file system, environment, subprocess log *)

Record FS := mkFS {
  files : gmap string string;   (* regular files: path to bytes *)
  dirs : gset string            (* directories *)
}.

(** One launch of a subprocess: what was run, with which environment, and
    the file system it saw when it started. *)
Record Spawn := mkSpawn {
  sp_argv : list string;
  sp_env : gmap string string;
  sp_fs : FS
}.

(** What a launched process does: its combined stdout/stderr, line by line,
    its exit status, and what it leaves on the file system. *)
Record ProcRun := mkProcRun {
  p_out : list string;
  p_ret : Z;
  p_effect : FS -> FS
}.

(** Keyword arguments of [client.containers.run]. *)
Record RunKwargs := mkRunKwargs {
  rk_command : json;
  rk_environment : json;
  rk_detach : bool;
  rk_ports : json;
  rk_publish_all_ports : bool;
  rk_remove : bool;
  rk_volumes : json;
  rk_extra : list (string * json)
}.

(** Requests the adapter sends through the docker SDK. *)
Inductive ApiCall :=
| NewAPIClient (kwargs : list (string * json))
| FromEnv (version : string)
| Images
| InspectImage (image : string)
| ContainersRun (image_spec : string) (kw : RunKwargs)
| CReload (cid : string)
| CLogs (cid : string) (stream timestamps : bool) (since : json)
| CKill (cid : string) (signal : string)
| CRemove (cid : string)
| CStop (cid : string) (timeout : Z)
| CWait (cid : string).

(** A calendar instant as [iso8601.parse_date] returns it: an aware
    [datetime], microsecond resolution, with its UTC offset in minutes. *)
Record datetime := mkDatetime {
  year : Z; month : Z; day : Z;
  hour : Z; minute : Z; second : Z; microsecond : Z;
  utcoffset_minutes : Z
}.

(** One entry of a tar stream, in the order [tarfile] meets them: a regular
    file with its bytes, a directory, or a block that cannot be read (the
    stream is truncated or damaged from there on).  Links and devices are
    left out. *)
Inductive member :=
| TarFile (name content : string)
| TarDir (name : string)
| TarDamaged (why : string).

(** A tar stream handed in as [fileobj]: the entries [tarfile] finds in it,
    or the reason [tarfile.open] cannot read it at all. *)
Inductive archive :=
| TarStream (members : list member)
| BadStream (why : string).

(** The external collaborators.  [engine] is the state of the docker daemon,
    which the adapter never sees except through [sdk]; [os_exec] is what
    launching a command does ([None]: it cannot be launched). *)
Class External := {
  engine : Type;
  sdk : ApiCall -> engine -> (exn + json) * engine;
  os_exec : list string -> gmap string string -> FS -> option ProcRun;
  parse_date : string -> exn + datetime
}.

(** The SDK's [Container] object: the identifier and the attributes fetched
    last ([attrs]), which only [reload] replaces. *)
Record SdkContainer := mkSdkContainer {
  c_id : string;
  attrs : json
}.

Record World `{External} := mkWorld {
  fs : FS;
  environ : gmap string string;
  pw_home : string;                      (* home directory of the user *)
  cwd : string;                          (* working directory, a directory of fs *)
  on_path : gmap string string;          (* what shutil.which resolves *)
  procs : list Spawn;                    (* subprocess launches, oldest first *)
  calls : list ApiCall;                  (* SDK requests, oldest first *)
  daemon : engine;
  heap : gmap nat SdkContainer           (* live SDK container objects *)
}.

(** ** File-system primitives ([os], [shutil], [tempfile], [tarfile]) *)

(** [p] lies strictly below directory [d]. *)
Definition under (d p : string) : bool := String.prefix (d ++ "/") p.

Definition in_tree (d p : string) : bool := String.eqb d p || under d p.

(** [shutil.rmtree(d, ignore_errors=True)]: [d] and all below it go. *)
Definition rmtree (d : string) (f : FS) : FS :=
  {| files := filter (fun kv => in_tree d kv.1 = false) (files f);
     dirs := filter (fun p => in_tree d p = false) (dirs f) |}.

Fixpoint strip_prefix (pre s : string) : option string :=
  match pre, s with
  | EmptyString, _ => Some s
  | String a pre', String b s' =>
      if Ascii.eqb a b then strip_prefix pre' s' else None
  | String _ _, EmptyString => None
  end.

Definition tmp_prefix : string := "/tmp/tmp".

(** [tempfile.mkdtemp()]: a name under the temporary directory that nothing
    on the file system bears yet, created as a directory. *)
Definition mkdtemp_name (f : FS) : string :=
  let taken : gset string :=
    set_omap (strip_prefix tmp_prefix) (dom (files f) ∪ dirs f) in
  tmp_prefix ++ fresh taken.

Definition mkdir (d : string) (f : FS) : FS :=
  {| files := files f; dirs := {[ d ]} ∪ dirs f |}.

Definition write_file (p content : string) (f : FS) : FS :=
  {| files := <[ p := content ]> (files f); dirs := dirs f |}.

(** Python truthiness of a [str]. *)
Definition truthy (s : string) : bool := negb (String.eqb s "").

Definition is_slash (c : Ascii.ascii) : bool := String.eqb (String c "") "/".

(** *** Path names ([pathlib], [os.path]) *)

(** The components of a path name, an empty one where two [/] meet. *)
Fixpoint split_slash (cur s : string) : list string :=
  match s with
  | EmptyString => [cur]
  | String c rest =>
      if is_slash c then cur :: split_slash "" rest
      else split_slash (cur ++ String c "") rest
  end.

(** The components that count: not the empty ones, not [.]. *)
Definition path_parts (s : string) : list string :=
  List.filter (fun part => truthy part && negb (String.eqb part "."))
    (split_slash "" s).

(** [str(pathlib.Path(s))] on POSIX: empty and [.] components and trailing
    slashes go, repeated slashes are one (exactly two leading ones are
    kept), [..] stays, and the empty path is [.]. *)
Definition Path (s : string) : string :=
  let root :=
    if String.prefix "//" s && negb (String.prefix "///" s) then "//"
    else if String.prefix "/" s then "/" else "" in
  let shown := root ++ String.concat "/" (path_parts s) in
  if truthy shown then shown else ".".

(** The name of the entry reached by a chain of components from the
    root. *)
Definition entry (chain : list string) : string := "/" ++ String.concat "/" chain.

(** The root is a directory whatever else there is. *)
Definition is_dir (key : string) (f : FS) : bool :=
  String.eqb key "/" || bool_decide (key ∈ dirs f).

(** The walk the kernel makes along the components of a path name: each
    step is taken from a directory, which has to exist; [..] steps out of
    it, and stays at the root when already there. *)
Fixpoint walk (f : FS) (chain parts : list string) : option (list string) :=
  match parts with
  | [] => Some chain
  | part :: rest =>
      if is_dir (entry chain) f then
        walk f (if String.eqb part ".." then removelast chain
                else (chain ++ [part])%list) rest
      else None
  end.

(** The file-system entry a path name denotes for a process working in
    [cwd], if the walk gets there; whether anything is at that entry is
    another matter. *)
Definition resolve (f : FS) (cwd p : string) : option string :=
  match walk f (if String.prefix "/" p then [] else path_parts cwd) (path_parts p) with
  | Some chain => Some (entry chain)
  | None => None
  end.

(** The file system as a process working in [cwd] finds it: its working
    directory exists. *)
Definition seen_from (cwd : string) (f : FS) : FS :=
  mkdir (entry (path_parts cwd)) f.

(** [os.path.exists(p)] *)
Definition exists_ (cwd p : string) (f : FS) : bool :=
  let g := seen_from cwd f in
  match resolve g cwd p with
  | Some key => bool_decide (is_Some (files g !! key)) || is_dir key g
  | None => false
  end.

(** *** Archives ([tarfile], as CPython 3.11 extracts) *)

(** The directories above [p], outermost first: every prefix of [p] that
    ends just before a [/]. *)
Fixpoint ancestors_from (seen s : string) : list string :=
  match s with
  | EmptyString => []
  | String c rest =>
      ((if is_slash c && truthy seen then [seen] else [])
         ++ ancestors_from (seen ++ String c "") rest)%list
  end.

Definition ancestors (p : string) : list string := ancestors_from "" p.

(** [os.makedirs] along the directories above [target]: the missing ones
    are made; a regular file in the way is an error, raised for the first
    path below that file, and what was made before it stays. *)
Fixpoint makedirs (target : string) (chain : list string) (f : FS) : option exn * FS :=
  match chain with
  | [] => (None, f)
  | a :: rest =>
      if bool_decide (is_Some (files f !! a))
      then (Some (NotADirectoryError (List.hd target rest)), f)
      else makedirs target rest (mkdir a f)
  end.

(** Where a member goes: [os.path.join(d, name)] as the kernel reads it,
    empty and [.] components dropped; an absolute [name] stands for
    itself.  A [..] component is kept as it is: such names are beyond this
    model. *)
Definition member_path (d name : string) : string :=
  match path_parts name with
  | [] => if String.prefix "/" name then "/" else d
  | parts =>
      if String.prefix "/" name then entry parts
      else d ++ "/" ++ String.concat "/" parts
  end.

(** [str.rstrip("/")] *)
Fixpoint rstrip_slash (s : string) : string :=
  match s with
  | EmptyString => EmptyString
  | String c rest =>
      let r := rstrip_slash rest in
      if is_slash c && negb (truthy r) then EmptyString else String c r
  end.


(** [tarf.extract(m, d)]: the directories above the target are made, then
    the file is written (over an earlier file of that name) or the
    directory made (a file already there stays as it is).  It raises where
    the stream cannot be read, where a file is to be written over a
    directory, and where a file is in the way of a directory to make. *)
Definition extract_member (d : string) (m : member) (f : FS) : option exn * FS :=
  match m with
  | TarDamaged why => (Some (ReadError why), f)
  | TarFile name content =>
      let p := member_path d name in
      match makedirs p (ancestors p) f with
      | (Some e, f1) => (Some e, f1)
      | (None, f1) =>
          if is_dir p f1 then (Some (IsADirectoryError p), f1)
          else (None, write_file p content f1)
      end
  | TarDir name =>
      let p := member_path d name in
      match makedirs p (ancestors p) f with
      | (Some e, f1) => (Some e, f1)
      | (None, f1) =>
          if bool_decide (is_Some (files f1 !! p)) then (None, f1)
          else (None, mkdir p f1)
      end
  end.

(** [tarf.extractall(d)]: the members one after the other.  The first
    error ends the extraction and is raised; what was extracted before it
    stays on the file system. *)
Fixpoint extractall (members : list member) (d : string) (f : FS) : option exn * FS :=
  match members with
  | [] => (None, f)
  | m :: rest =>
      match extract_member d m f with
      | (Some e, f') => (Some e, f')
      | (None, f') => extractall rest d f'
      end
  end.



(** [shutil.copy2(src, dst)], for a [dst] that names a new file by its
    full path. *)
Definition copy2 (cwd src dst : string) (f : FS) : exn + FS :=
  let g := seen_from cwd f in
  match resolve g cwd src with
  | Some key =>
      match files g !! key with
      | Some content => inr (write_file dst content f)
      | None =>
          if is_dir key g then inl (IsADirectoryError src)
          else inl (OSError "No such file or directory")
      end
  | None => inl (OSError "No such file or directory")
  end.

(** ** [datetime.timestamp()] and [int()] *)

Definition is_leap (y : Z) : bool :=
  (y mod 4 =? 0) && (negb (y mod 100 =? 0) || (y mod 400 =? 0)).

Definition days_before_year (y : Z) : Z :=
  let y1 := y - 1 in y1 * 365 + y1 / 4 - y1 / 100 + y1 / 400.

Definition days_before_month (y m : Z) : Z :=
  nth (Z.to_nat m) [0; 0; 31; 59; 90; 120; 151; 181; 212; 243; 273; 304; 334] 0
  + (if (2 <? m) && is_leap y then 1 else 0).

Definition ymd2ord (y m d : Z) : Z :=
  days_before_year y + days_before_month y m + d.

(** Ordinal of 1970-01-01. *)
Definition epoch_ord : Z := 719163.

(** [(dt - EPOCH)] in microseconds: what [timedelta] holds, exactly. *)
Definition delta_us (dt : datetime) : Z :=
  ((ymd2ord (year dt) (month dt) (day dt) - epoch_ord) * 86400
   + hour dt * 3600 + minute dt * 60 + second dt
   - utcoffset_minutes dt * 60) * 1000000
  + microsecond dt.

(** A finite binary64 value [m * 2^e], with [|m| <= 2^53]. *)
Definition float : Type := Z * Z.

(** [n / d] for [n >= 0], [d > 0], rounded to the nearest integer, ties to
    even. *)
Definition rne (n d : Z) : Z :=
  let q := n / d in
  let r := n mod d in
  if 2 * r <? d then q
  else if d <? 2 * r then q + 1
  else if Z.even q then q else q + 1.

(** [floor (log2 (n / d))] for [n, d > 0]. *)
Definition ilog2_ratio (n d : Z) : Z :=
  let e0 := Z.log2 n - Z.log2 d in
  let below :=
    if 0 <=? e0 then n <? d * 2 ^ e0 else n * 2 ^ (- e0) <? d in
  if below then e0 - 1 else e0.

(** True division of two [int]s, [a / b] with [b > 0]: the quotient
    correctly rounded to 53 significant bits (CPython's [long_true_divide];
    the quotients of this file are far from overflow and underflow). *)
Definition true_divide (a b : Z) : float :=
  if a =? 0 then (0, 0)
  else
    let n := Z.abs a in
    let e := ilog2_ratio n b - 52 in
    let m := if e <? 0 then rne (n * 2 ^ (- e)) b else rne n (b * 2 ^ e) in
    (Z.sgn a * m, e).

(** [int(x)] of a float: towards zero. *)
Definition int_of_float (x : float) : Z :=
  let '(m, e) := x in
  if 0 <=? e then m * 2 ^ e else Z.quot m (2 ^ (- e)).

(** [dt.timestamp()] of an aware datetime: [(dt - EPOCH).total_seconds()]. *)
Definition timestamp (dt : datetime) : float := true_divide (delta_us dt) 1000000.

(** The whole second an instant lies in: the second its calendar fields
    name, as a count from the epoch. *)
Definition whole_second (dt : datetime) : Z := delta_us dt / 1000000.

(** ** The adapter *)

Section Adapter.
Context `{External}.

(** *** State and errors *)

Definition M (A : Type) : Type := World -> (exn + A) * World.

Definition ret {A} (a : A) : M A := fun w => (inr a, w).
Definition raise {A} (e : exn) : M A := fun w => (inl e, w).
Definition bind {A B} (m : M A) (k : A -> M B) : M B :=
  fun w =>
    match m w with
    | (inl e, w') => (inl e, w')
    | (inr a, w') => k a w'
    end.
Definition lift {A} (r : exn + A) : M A := fun w => (r, w).

Notation "x <- m ;; k" := (bind m (fun x => k))
  (at level 100, m at next level, right associativity).

Definition set_fs (f : FS) (w : World) : World :=
  {| fs := f; environ := environ w; pw_home := pw_home w; cwd := cwd w; on_path := on_path w;
     procs := procs w; calls := calls w; daemon := daemon w; heap := heap w |}.

Definition log_spawn (s : Spawn) (w : World) : World :=
  {| fs := fs w; environ := environ w; pw_home := pw_home w; cwd := cwd w; on_path := on_path w;
     procs := procs w ++ [s]; calls := calls w; daemon := daemon w; heap := heap w |}.

Definition set_heap (h : gmap nat SdkContainer) (w : World) : World :=
  {| fs := fs w; environ := environ w; pw_home := pw_home w; cwd := cwd w; on_path := on_path w;
     procs := procs w; calls := calls w; daemon := daemon w; heap := h |}.

(** One request through the SDK: logged, answered by the daemon. *)
Definition request (c : ApiCall) : M json :=
  fun w =>
    let '(r, e') := sdk c (daemon w) in
    (r, {| fs := fs w; environ := environ w; pw_home := pw_home w; cwd := cwd w;
           on_path := on_path w; procs := procs w; calls := calls w ++ [c];
           daemon := e'; heap := heap w |}).

(** *** The SDK's container objects (docker-py's [Container] model) *)

(** The object behind a reference; a dangling one cannot arise from [run]. *)
Definition deref (r : nat) : M SdkContainer :=
  fun w =>
    match heap w !! r with
    | Some c => (inr c, w)
    | None => (inl (RuntimeError "dangling container object"), w)
    end.

(** Wrap freshly fetched attributes in a new container object. *)
Definition new_container (a : json) : M nat :=
  fun w =>
    match getitem a "Id" with
    | inr (JStr i) =>
        let r := fresh (dom (heap w)) in
        (inr r, set_heap (<[ r := mkSdkContainer i a ]> (heap w)) w)
    | inr _ => (inl (TypeError "Id"), w)
    | inl e => (inl e, w)
    end.

(** [Container.reload()]: fetch the attributes again and keep them. *)
Definition sdk_reload (r : nat) : M json :=
  c <- deref r ;;
  a <- request (CReload (c_id c)) ;;
  fun w => (inr JNull, set_heap (<[ r := mkSdkContainer (c_id c) a ]> (heap w)) w).

(** [Container.status]: a property over the cached attributes. *)
Definition sdk_status (r : nat) : M json :=
  c <- deref r ;;
  st <- lift (getitem (attrs c) "State") ;;
  match st with
  | JObj _ => lift (getitem st "Status")
  | _ => ret st
  end.

(** *** [class DockerContainer(Container)] *)

Record DockerContainer := mkDockerContainer { _c : nat }.

Definition reload (self : DockerContainer) : M json := sdk_reload (_c self).

(** [since] is a string or [None] ([JNull]); anything falsy is passed on as
    it is. *)
Definition logs (self : DockerContainer) (stream timestamps : bool)
    (since : option string) : M json :=
  since' <-
    match since with
    | Some s =>
        if truthy s then
          dt <- lift (parse_date s) ;;
          ret (JInt (int_of_float (timestamp dt)))
        else ret (JStr s)
    | None => ret JNull
    end ;;
  c <- deref (_c self) ;;
  request (CLogs (c_id c) stream timestamps since').

Definition kill (self : DockerContainer) (signal : string) : M json :=
  c <- deref (_c self) ;; request (CKill (c_id c) signal).

Definition remove (self : DockerContainer) : M json :=
  c <- deref (_c self) ;; request (CRemove (c_id c)).

Definition stop (self : DockerContainer) (timeout : Z) : M json :=
  c <- deref (_c self) ;; request (CStop (c_id c) timeout).

Definition wait (self : DockerContainer) : M json :=
  c <- deref (_c self) ;; request (CWait (c_id c)).

Definition exitcode (self : DockerContainer) : M json :=
  c <- deref (_c self) ;;
  st <- lift (getitem (attrs c) "State") ;;
  lift (getitem st "ExitCode").

Definition status (self : DockerContainer) : M json := sdk_status (_c self).

(** *** Generators *)

(** A generator runs from where it is suspended up to its next [yield]
    (handing back what it needs to go on), to its end, or to an exception.
    It resumes in the world as it is then. *)
Inductive Step :=
| Yield (line : string) (w : World) (resume : World -> Step)
| Return (w : World)
| Raise (e : exn) (w : World).

(** A generator object: a suspended body.  Nothing of the body has run. *)
Definition generator : Type := World -> Step.

(** [next(g)] *)
Definition next (g : generator) (w : World) : Step := g w.

(** Leaving a [with tempfile.TemporaryDirectory() as d:] block that
    surrounds the rest of a generator's body: [d] is removed when the body
    ends or raises, not while it is suspended. *)
Fixpoint with_cleanup (d : string) (s : Step) : Step :=
  match s with
  | Yield line w resume => Yield line w (fun w' => with_cleanup d (resume w'))
  | Return w => Return (set_fs (rmtree d (fs w)) w)
  | Raise e w => Raise e (set_fs (rmtree d (fs w)) w)
  end.

(** [tempfile.TemporaryDirectory().__enter__()] *)
Definition mkdtemp (w : World) : string * World :=
  let d := mkdtemp_name (fs w) in (d, set_fs (mkdir d (fs w)) w).

Fixpoint emit (lines : list string) (fin : World -> Step) (w : World) : Step :=
  match lines with
  | [] => fin w
  | line :: rest => Yield line w (emit rest fin)
  end.

(** Modelled from the spec: [execute_cmd] of [repo2docker/utils.py], which
    is not among the sources.  The command is launched as a subprocess; with
    [capture] each line of its combined output is yielded as it comes; the
    sequence ends when the process exits, and a non-zero exit status is
    raised as an error. *)
Definition execute_cmd (cmd : list string) (capture : bool) : generator :=
  fun w =>
    let w1 := log_spawn (mkSpawn cmd (environ w) (fs w)) w in
    match os_exec cmd (environ w) (fs w) with
    | None => Raise (OSError "cannot launch") w1
    | Some p =>
        let fin w' :=
          let w'' := set_fs (p_effect p (fs w')) w' in
          if p_ret p =? 0 then Return w''
          else Raise (CalledProcessError (p_ret p) cmd) w'' in
        if capture then emit (p_out p) fin w1 else fin w1
    end.

(** [subprocess.check_call(cmd, env=env)] *)
Definition check_call (cmd : list string) (env : gmap string string) : M unit :=
  fun w =>
    let w1 := log_spawn (mkSpawn cmd env (fs w)) w in
    match os_exec cmd env (fs w) with
    | None => (inl (OSError "cannot launch"), w1)
    | Some p =>
        let w2 := set_fs (p_effect p (fs w1)) w1 in
        if p_ret p =? 0 then (inr tt, w2)
        else (inl (CalledProcessError (p_ret p) cmd), w2)
    end.

(** [shutil.which(cmd)], as a truth value. *)
Definition which (cmd : string) (w : World) : bool :=
  match on_path w !! cmd with
  | Some p => truthy p
  | None => false
  end.

(** [os.path.expanduser("~" + rest)], for a [rest] that starts with a
    slash: the home directory without its trailing slashes, then [rest]. *)
Definition expanduser (rest : string) (w : World) : string :=
  match environ w !! "HOME" with
  | Some home => rstrip_slash home ++ rest
  | None => rstrip_slash (pw_home w) ++ rest
  end.

(** *** [class DockerEngine(ContainerEngine)] *)

(** Modelled from the spec: [Image] of [repo2docker/engine.py], which is not
    among the sources: the tags and the optional configuration ([None] when
    not given). *)
Record Image := mkImage { tags : json; config : json }.

(** The configurable traits; [registry_credentials] is inherited from
    [ContainerEngine]. *)
Record DockerEngine := mkDockerEngine {
  extra_init_args : list (string * json);
  extra_buildx_build_args : list string;
  registry_credentials : gmap string string
}.

(** Keyword arguments of [build]; [container_limits], [custom_context] and
    the remaining [**kwargs] are accepted and not used. *)
Record BuildKwargs := mkBuildKwargs {
  buildargs : option (list (string * string));
  cache_from : option (list string);
  tag : string;
  dockerfile : string;
  fileobj : option archive;
  path : string;
  labels : option (list (string * string));
  platform : option string
}.


(** The argument list as [build] accumulates it, statement by statement,
    up to the context path. *)
Definition build_args (self : DockerEngine) (k : BuildKwargs) : list string :=
  let args := ["docker"; "buildx"; "build"; "--progress"; "plain"; "--load"] in
  let args :=
    match buildargs k with
    | Some ((_ :: _) as items) =>
        fold_left (fun args kv => (args ++ ["--build-arg"; kv.1 +:+ "=" +:+ kv.2])%list)
          items args
    | _ => args
    end in
  let args :=
    match cache_from k with
    | Some ((_ :: _) as items) =>
        fold_left (fun args cf => (args ++ ["--cache-from"; cf])%list) items args
    | _ => args
    end in
  let args :=
    if truthy (dockerfile k) then (args ++ ["--file"; dockerfile k])%list else args in
  let args :=
    if truthy (tag k) then (args ++ ["--tag"; tag k])%list else args in
  let args :=
    match labels k with
    | Some ((_ :: _) as items) =>
        fold_left (fun args kv => (args ++ ["--label"; kv.1 +:+ "=" +:+ kv.2])%list)
          items args
    | _ => args
    end in
  let args :=
    match platform k with
    | Some p => if truthy p then (args ++ ["--platform"; p])%list else args
    | None => args
    end in
  (args ++ extra_buildx_build_args self)%list.

(** The body of [build], run by the first [next]. *)
Definition build_body (self : DockerEngine) (k : BuildKwargs) : generator :=
  fun w =>
    if negb (which "docker" w) then
      Raise (RuntimeError "The docker commandline client must be installed") w
    else
      let args := build_args self k in
      match fileobj k with
      | Some f =>
          let '(d, w1) := mkdtemp w in
          with_cleanup d
            match f with
            | BadStream why => Raise (ReadError why) w1
            | TarStream members =>
                match extractall members d (fs w1) with
                | (Some e, f') => Raise e (set_fs f' w1)
                | (None, f') => execute_cmd (args ++ [d])%list true (set_fs f' w1)
                end
            end
      | None => execute_cmd (args ++ [path k])%list true w
      end.

(** [build] has [yield from] in its body: calling it makes the generator
    and runs nothing. *)
Definition build (self : DockerEngine) (k : BuildKwargs) : M generator :=
  ret (build_body self k).

(** [images] *)
Fixpoint image_tags (items : list json) : exn + list Image :=
  match items with
  | [] => inr []
  | image :: rest =>
      match getitem image "RepoTags" with
      | inl e => inl e
      | inr t =>
          match image_tags rest with
          | inl e => inl e
          | inr imgs => inr (mkImage t JNull :: imgs)
          end
      end
  end.

Definition images (self : DockerEngine) : M (list Image) :=
  imgs <- request Images ;;
  match imgs with
  | JList items => lift (image_tags items)
  | _ => raise (TypeError "object is not iterable")
  end.

Definition inspect_image (self : DockerEngine) (image : string) : M Image :=
  image <- request (InspectImage image) ;;
  t <- lift (getitem image "RepoTags") ;;
  c <- lift (getitem image "Config") ;;
  ret (mkImage t c).

(** The [@contextmanager] [docker_login], up to its [yield]: what entering
    the [with] block does.  It hands back the temporary directory, which
    leaving the block (or an exception on the way) removes. *)
Definition docker_login (self : DockerEngine) (username password registry : string)
    : M string :=
  fun w =>
    let dc_path :=
      Path
        match environ w !! "DOCKER_CONFIG" with
        | Some p => p
        | None => expanduser "/.docker/config.json" w
        end in
    let '(d, w1) := mkdtemp w in
    let new_dc_path := d ++ "/config.json" in
    let copied :=
      if exists_ (cwd w1) dc_path (fs w1)
      then copy2 (cwd w1) dc_path new_dc_path (fs w1)
      else inr (fs w1) in
    match copied with
    | inl e => (inl e, set_fs (rmtree d (fs w1)) w1)
    | inr f2 =>
        let w2 := set_fs f2 w1 in
        let env := environ w2 in
        match
          check_call
            ["docker"; "login"; "--username"; username; "--password"; password;
             registry] env w2
        with
        | (inl e, w3) => (inl e, set_fs (rmtree d (fs w3)) w3)
        | (inr _, w3) => (inr d, w3)
        end
    end.

(** [**self.registry_credentials]: the keywords must be exactly the three
    parameters of [docker_login]. *)
Definition login_kwargs (creds : gmap string string) : exn + (string * string * string) :=
  match creds !! "username", creds !! "password", creds !! "registry" with
  | Some u, Some p, Some r =>
      if bool_decide (size creds = 3%nat) then inr (u, p, r)
      else inl (TypeError "docker_login() got an unexpected keyword argument")
  | _, _, _ => inl (TypeError "docker_login() missing required positional arguments")
  end.

(** The body of [push]. *)
Definition push_body (self : DockerEngine) (image_spec : string) : generator :=
  fun w =>
    if negb (bool_decide (registry_credentials self = ∅)) then
      match login_kwargs (registry_credentials self) with
      | inl e => Raise e w
      | inr (u, p, r) =>
          match docker_login self u p r w with
          | (inl e, w') => Raise e w'
          | (inr d, w') =>
              with_cleanup d (execute_cmd ["docker"; "push"; image_spec] true w')
          end
      end
    else execute_cmd ["docker"; "push"; image_spec] true w.

Definition push (self : DockerEngine) (image_spec : string) : M generator :=
  ret (push_body self image_spec).

(** Python's [x or default]. *)
Definition py_or (x default : json) : json :=
  match x with
  | JNull | JBool false | JInt 0 | JStr "" | JList [] | JObj [] => default
  | _ => x
  end.

(** A keyword left in [**kwargs] that the call
    [client.containers.run(image_spec, ..., detach=True, ..., **kwargs)]
    binds already: [detach], written out in the call, and [image], the
    SDK's name for its first parameter.  Python raises [TypeError] for it
    when the call is evaluated, before the SDK is entered. *)
Definition repeated_keyword (kwargs : list (string * json)) : option string :=
  match assoc "detach" kwargs, assoc "image" kwargs with
  | Some _, _ => Some "detach"
  | None, Some _ => Some "image"
  | None, None => None
  end.

(** Keyword arguments of [run]; what is left in [**kwargs] is passed on. *)
Record RunArgs := mkRunArgs {
  command : json;
  environment : json;
  ports : json;
  publish_all_ports : bool;
  remove_ : bool;
  volumes : json;
  kwargs : list (string * json)
}.

Definition run (self : DockerEngine) (image_spec : string) (a : RunArgs)
    : M DockerContainer :=
  _ <- request (FromEnv "auto") ;;
  match repeated_keyword (kwargs a) with
  | Some key => raise (TypeError ("got multiple values for keyword argument " +:+ key))
  | None =>
      container <-
        request
          (ContainersRun image_spec
             {| rk_command := command a;
                rk_environment := py_or (environment a) (JList []);
                rk_detach := true;
                rk_ports := py_or (ports a) (JObj []);
                rk_publish_all_ports := publish_all_ports a;
                rk_remove := remove_ a;
                rk_volumes := py_or (volumes a) (JObj []);
                rk_extra := kwargs a |}) ;;
      r <- new_container container ;;
      ret (mkDockerContainer r)
  end.

(** *** Consuming a generator *)

(** How a generator's run ended. *)
Inductive outcome :=
| Finished
| Raised (e : exn).

(** [list(g)]: every line up to the end or the exception, with nothing else
    happening in between. *)
Fixpoint drain (s : Step) : list string * outcome * World :=
  match s with
  | Yield line w resume =>
      let '(lines, o, w') := drain (resume w) in (line :: lines, o, w')
  | Return w => ([], Finished, w)
  | Raise e w => ([], Raised e, w)
  end.

Definition consume (g : generator) (w : World) : list string * outcome * World :=
  drain (next g w).

(** How a captured command ends. *)
Definition exit_outcome (cmd : list string) (p : ProcRun) : outcome :=
  if p_ret p =? 0 then Finished else Raised (CalledProcessError (p_ret p) cmd).


(** The world just after a command was launched from [w]. *)
Definition launched (cmd : list string) (w : World) : World :=
  log_spawn (mkSpawn cmd (environ w) (fs w)) w.

End Adapter.

(** ** Constructing the engine *)

(** [d[k] = v] on a dictionary that keeps insertion order. *)
Fixpoint dict_set (k : string) (v : json) (d : list (string * json))
    : list (string * json) :=
  match d with
  | [] => [(k, v)]
  | (k', v') :: rest =>
      if String.eqb k k' then (k, v) :: rest else (k', v') :: dict_set k v rest
  end.

(** [d.update(other)] *)
Definition dict_update (d other : list (string * json)) : list (string * json) :=
  fold_left (fun d kv => dict_set kv.1 kv.2 d) other d.

(** [d.setdefault(k, v)] *)
Definition dict_setdefault (k : string) (v : json) (d : list (string * json))
    : list (string * json) :=
  match assoc k d with
  | Some _ => d
  | None => dict_set k v d
  end.

(** [isinstance(e, docker.errors.DockerException)]: the base class and the
    API errors derived from it. *)
Definition is_docker_error (e : exn) : bool :=
  match e with
  | DockerException _ | APIError _ | NotFound _ | ImageNotFound _ => true
  | _ => false
  end.

(** [str(e)] *)
Definition describe (e : exn) : string :=
  match e with
  | RuntimeError m | OSError m | IsADirectoryError m | NotADirectoryError m
  | ReadError m
  | TypeError m | KeyError m | ParseError m | ImageNotFound m | NotFound m
  | APIError m | DockerException m => m
  | CalledProcessError _ _ => "Command returned non-zero exit status"
  | ContainerEngineException m _ => m
  end.

Section Construction.
Context `{External}.

(** [DockerEngine.__init__], given what [docker.utils.kwargs_from_env()]
    derives from the environment (or the error it raises). *)
Definition init (self : DockerEngine) (from_env : exn + list (string * json))
    : M unit :=
  fun w =>
    let attempt : (exn + json) * World :=
      match from_env with
      | inl e => (inl e, w)
      | inr kwargs =>
          let kwargs := dict_update kwargs (extra_init_args self) in
          let kwargs := dict_setdefault "version" (JStr "auto") kwargs in
          request (NewAPIClient kwargs) w
      end in
    match attempt with
    | (inl e, w') =>
        if is_docker_error e then
          (inl (ContainerEngineException
                  "Check if docker is running on the host." (describe e)), w')
        else (inl e, w')
    | (inr _, w') => (inr tt, w')
    end.

End Construction.

(** ** A reference host

    One concrete [External], used to run the adapter on examples: a docker
    client that keeps credentials in the configuration file its environment
    points to, a daemon that knows one image, and a parser for timestamps of
    the form [YYYY-MM-DDTHH:MM:SS(.f+)Z]. *)

Definition digit (c : Ascii.ascii) : option Z :=
  let n := Z.of_nat (Ascii.nat_of_ascii c) - 48 in
  if (0 <=? n) && (n <=? 9) then Some n else None.

Fixpoint number (s : string) (acc : Z) : option Z :=
  match s with
  | EmptyString => Some acc
  | String c s' =>
      match digit c with
      | Some d => number s' (acc * 10 + d)
      | None => None
      end
  end.

Definition field (s : string) (start len : nat) : option Z :=
  let t := String.substring start len s in
  if Nat.eqb (String.length t) len then number t 0 else None.

(** Fractional digits up to the closing [Z], as microseconds. *)
Definition fraction (s : string) : option Z :=
  match s with
  | "Z" => Some 0
  | String (Ascii.Ascii false true true true false true false false) rest =>
      let n := (String.length rest - 1)%nat in
      if (Nat.leb 1 n && Nat.leb n 6)
         && String.eqb (String.substring n 1 rest) "Z" then
        match number (String.substring 0 n rest) 0 with
        | Some v => Some (v * 10 ^ Z.of_nat (6 - n))
        | None => None
        end
      else None
  | _ => None
  end.

Definition ref_parse_date (s : string) : exn + datetime :=
  match field s 0 4, field s 5 2, field s 8 2,
        field s 11 2, field s 14 2, field s 17 2,
        fraction (String.substring 19 (String.length s - 19) s) with
  | Some y, Some mo, Some d, Some h, Some mi, Some sec, Some us =>
      if String.eqb (String.substring 4 1 s) "-" && String.eqb (String.substring 7 1 s) "-"
         && String.eqb (String.substring 10 1 s) "T"
         && String.eqb (String.substring 13 1 s) ":" && String.eqb (String.substring 16 1 s) ":"
      then inr (mkDatetime y mo d h mi sec us 0)
      else inl (ParseError s)
  | _, _, _, _, _, _, _ => inl (ParseError s)
  end.

(** Where the docker client keeps its configuration. *)
Definition cli_config_path (env : gmap string string) : string :=
  match env !! "DOCKER_CONFIG" with
  | Some dir => dir ++ "/config.json"
  | None =>
      match env !! "HOME" with
      | Some home => home ++ "/.docker/config.json"
      | None => "/.docker/config.json"
      end
  end.

Definition file_or_empty (p : string) (f : FS) : string :=
  match files f !! p with Some c => c | None => "" end.

(** The docker client: [login] records the credentials in its
    configuration file, [push] uploads, [buildx build] needs a [Dockerfile]
    in the context (its last argument). *)
Definition ref_docker (argv : list string) (env : gmap string string) (f : FS)
    : option ProcRun :=
  match argv with
  | ["docker"; "login"; "--username"; u; "--password"; p; registry] =>
      let cfg := cli_config_path env in
      Some {| p_out := ["Login Succeeded"]; p_ret := 0;
              p_effect := fun f' =>
                write_file cfg
                  (file_or_empty cfg f' ++ "auth " ++ registry ++ " " ++ u ++ ":" ++ p ++ ";")
                  f' |}
  | ["docker"; "push"; image] =>
      Some {| p_out := ["The push refers to repository " ++ image; "pushed"];
              p_ret := 0; p_effect := fun f' => f' |}
  | "docker" :: "buildx" :: "build" :: rest =>
      match files f !! (List.last rest "" ++ "/Dockerfile") with
      | Some _ =>
          Some {| p_out := ["#1 load build definition"; "#2 DONE"]; p_ret := 0;
                  p_effect := fun f' => f' |}
      | None =>
          Some {| p_out := ["ERROR: failed to read dockerfile"]; p_ret := 1;
                  p_effect := fun f' => f' |}
      end
  | _ => None
  end.

Definition ref_container (st : string) (code : Z) : json :=
  JObj [("Id", JStr "c0ffee");
        ("State", JObj [("Status", JStr st); ("ExitCode", JInt code)])].

(** The daemon: a clock-like counter of finished [wait]s; one image,
    [demo:1]; one container, which exits with status 3 once waited for. *)
Definition ref_sdk (c : ApiCall) (n : nat) : (exn + json) * nat :=
  match c with
  | NewAPIClient _ | FromEnv _ => (inr JNull, n)
  | Images =>
      (inr (JList [JObj [("RepoTags", JList [JStr "demo:1"])]]), n)
  | InspectImage "demo:1" =>
      (inr (JObj [("RepoTags", JList [JStr "demo:1"]);
                  ("Config", JObj [("Cmd", JList [JStr "sh"])])]), n)
  | InspectImage other => (inl (ImageNotFound other), n)
  | ContainersRun _ _ => (inr (ref_container "created" 0), n)
  | CReload _ =>
      (inr (match n with
            | O => ref_container "running" 0
            | S _ => ref_container "exited" 3
            end), n)
  | CWait _ => (inr (JObj [("StatusCode", JInt 3)]), S n)
  | CLogs _ _ _ _ | CKill _ _ | CRemove _ | CStop _ _ => (inr JNull, n)
  end.

Definition ref_host : External :=
  {| engine := nat; sdk := ref_sdk; os_exec := ref_docker;
     parse_date := ref_parse_date |}.

(** A host with the docker client installed and a user configuration
    holding earlier credentials. *)
Definition ref_world : @World ref_host :=
  {| fs := {| files := {[ "/root/.docker/config.json" := "auth old.example x:y;" ]};
              dirs := {[ "/root"; "/root/.docker"; "/tmp" ]} |};
     environ := {[ "HOME" := "/root" ]};
     pw_home := "/root"; cwd := "/root";
     on_path := {[ "docker" := "/usr/bin/docker" ]};
     procs := [];
     calls := [];
     daemon := (O : @engine ref_host);
     heap := ∅ |}.

(** The same host without the docker client. *)
Definition bare_world : @World ref_host :=
  {| fs := fs ref_world; environ := environ ref_world; pw_home := "/root"; cwd := "/root";
     on_path := ∅; procs := []; calls := []; daemon := (O : @engine ref_host);
     heap := ∅ |}.

(** The reference host holding one container object, fetched while the
    container was running. *)
Definition held_world : @World ref_host :=
  {| fs := fs ref_world; environ := environ ref_world; pw_home := "/root"; cwd := "/root";
     on_path := on_path ref_world; procs := []; calls := [];
     daemon := (O : @engine ref_host);
     heap := {[ O := mkSdkContainer "c0ffee" (ref_container "running" 0) ]} |}.

Definition held_container : DockerContainer := mkDockerContainer O.

Definition ref_engine : DockerEngine :=
  {| extra_init_args := []; extra_buildx_build_args := ["--quiet"];
     registry_credentials := ∅ |}.

Definition ref_engine_login : DockerEngine :=
  {| extra_init_args := []; extra_buildx_build_args := [];
     registry_credentials :=
       {[ "username" := "u"; "password" := "p"; "registry" := "reg.example" ]} |}.

Definition no_kwargs : BuildKwargs :=
  {| buildargs := None; cache_from := None; tag := ""; dockerfile := "";
     fileobj := None; path := ""; labels := None; platform := None |}.



(** ** The argument grammar, stated *)








(** The two commands of [push]. *)
Definition push_command (image_spec : string) : list string :=
  ["docker"; "push"; image_spec].

Definition login_command (username password registry : string) : list string :=
  ["docker"; "login"; "--username"; username; "--password"; password; registry].

(** The same call with another [path]. *)
Definition with_path (p : string) (k : BuildKwargs) : BuildKwargs :=
  {| buildargs := buildargs k; cache_from := cache_from k; tag := tag k;
     dockerfile := dockerfile k; fileobj := fileobj k; path := p;
     labels := labels k; platform := platform k |}.

(** What happened between two worlds: the subprocesses launched and the SDK
    requests made. *)
Definition new_procs `{External} (w w' : World) : list Spawn :=
  drop (length (procs w)) (procs w').

Definition new_calls `{External} (w w' : World) : list ApiCall :=
  drop (length (calls w)) (calls w').




(** The path name [docker_login] takes for the user's existing
    configuration, as [pathlib] holds it. *)
Definition docker_config_name `{External} (w : World) : string :=
  Path
    match environ w !! "DOCKER_CONFIG" with
    | Some p => p
    | None => expanduser "/.docker/config.json" w
    end.

(** The file system [docker_login] prepares for the login command: the
    temporary directory, with a copy of the user's configuration when there
    is one. *)
Definition login_fs `{External} (w : World) : exn + FS :=
  let d := mkdtemp_name (fs w) in
  let f1 := mkdir d (fs w) in
  if exists_ (cwd w) (docker_config_name w) f1
  then copy2 (cwd w) (docker_config_name w) (d ++ "/config.json") f1
  else inr f1.

(** A registry that refuses every login. *)
Definition deny_docker (argv : list string) (env : gmap string string) (f : FS)
    : option ProcRun :=
  match argv with
  | ["docker"; "login"; "--username"; _; "--password"; _; _] =>
      Some {| p_out := ["Error response from daemon: unauthorized"]; p_ret := 1;
              p_effect := fun f' => f' |}
  | _ => ref_docker argv env f
  end.

Definition deny_host : External :=
  {| engine := nat; sdk := ref_sdk; os_exec := deny_docker;
     parse_date := ref_parse_date |}.

Definition deny_world : @World deny_host :=
  {| fs := fs ref_world; environ := environ ref_world; pw_home := "/root"; cwd := "/root";
     on_path := on_path ref_world; procs := []; calls := [];
     daemon := (O : @engine deny_host); heap := ∅ |}.

(** The reference host with [DOCKER_CONFIG] naming the configuration
    directory, as the docker client reads it, with a trailing slash. *)
Definition config_dir_world : @World ref_host :=
  {| fs := fs ref_world;
     environ := {[ "HOME" := "/root"; "DOCKER_CONFIG" := "/root/.docker/" ]};
     pw_home := "/root"; cwd := "/root"; on_path := on_path ref_world; procs := []; calls := [];
     daemon := (O : @engine ref_host); heap := ∅ |}.

(** The reference host with [DOCKER_CONFIG] set and empty. *)
Definition empty_config_world : @World ref_host :=
  {| fs := fs ref_world;
     environ := {[ "HOME" := "/root"; "DOCKER_CONFIG" := "" ]};
     pw_home := "/root"; cwd := "/root"; on_path := on_path ref_world;
     procs := []; calls := []; daemon := (O : @engine ref_host); heap := ∅ |}.

(** A [run] whose extra keywords repeat [detach]. *)
Definition detach_run_args : RunArgs :=
  {| command := JList [JStr "sh"]; environment := JNull; ports := JNull;
     publish_all_ports := false; remove_ := false; volumes := JNull;
     kwargs := [("detach", JBool false)] |}.

Definition ref_run_args : RunArgs :=
  {| command := JList [JStr "sh"]; environment := JNull; ports := JNull;
     publish_all_ports := false; remove_ := false; volumes := JNull;
     kwargs := [] |}.

(** An engine whose [extra_init_args] pin the API version and the host. *)
Definition pinned_engine : DockerEngine :=
  {| extra_init_args := [("version", JStr "1.41"); ("base_url", JStr "tcp://b:2375")];
     extra_buildx_build_args := []; registry_credentials := ∅ |}.

(** An engine with a credentials dictionary that lacks the registry. *)
Definition partial_login_engine : DockerEngine :=
  {| extra_init_args := []; extra_buildx_build_args := [];
     registry_credentials := {[ "username" := "u"; "password" := "p" ]} |}.

(** A daemon that has lost the container and does not know the image. *)
Definition refusing_sdk (c : ApiCall) (n : nat) : (exn + json) * nat :=
  match c with
  | ContainersRun image _ => (inl (ImageNotFound image), n)
  | CReload cid => (inl (NotFound cid), n)
  | _ => ref_sdk c n
  end.

Definition refusing_host : External :=
  {| engine := nat; sdk := refusing_sdk; os_exec := ref_docker;
     parse_date := ref_parse_date |}.

Definition refusing_world : @World refusing_host :=
  {| fs := fs ref_world; environ := environ ref_world; pw_home := "/root"; cwd := "/root";
     on_path := on_path ref_world; procs := []; calls := [];
     daemon := (O : @engine refusing_host);
     heap := {[ O := mkSdkContainer "c0ffee" (ref_container "running" 0) ]} |}.

(** * Properties *)

Section Properties.
Context `{External}.

(** ** Bookkeeping *)

Lemma new_procs_app (w w' : World) (l : list Spawn) :
  procs w' = (procs w ++ l)%list -> new_procs w w' = l.
Proof. unfold new_procs. intros ->. apply drop_app_length. Qed.

Lemma new_calls_app (w w' : World) (l : list ApiCall) :
  calls w' = (calls w ++ l)%list -> new_calls w w' = l.
Proof. unfold new_calls. intros ->. apply drop_app_length. Qed.

Lemma new_procs_same (w w' : World) : procs w' = procs w -> new_procs w w' = [].
Proof. unfold new_procs. intros ->. apply drop_all. Qed.

(** ** The file system *)

Lemma in_tree_refl (d : string) : in_tree d d = true.
Proof. unfold in_tree. by rewrite String.eqb_refl. Qed.

Lemma strip_prefix_app (pre s : string) : strip_prefix pre (pre ++ s) = Some s.
Proof.
  induction pre as [| a pre IH]; simpl; [reflexivity |].
  by rewrite Ascii.eqb_refl.
Qed.

(** [mkdtemp] picks a name that nothing bears yet. *)
Lemma mkdtemp_name_fresh (f : FS) :
  (mkdtemp_name f ∉ dirs f) /\ (files f !! mkdtemp_name f = None).
Proof.
  unfold mkdtemp_name.
  set (taken := set_omap (strip_prefix tmp_prefix) (dom (files f) ∪ dirs f)
                : gset string).
  assert (Hfree : tmp_prefix ++ fresh taken ∉ dom (files f) ∪ dirs f).
  { intros Hin. apply (is_fresh taken). unfold taken at 2.
    apply elem_of_set_omap. exists (tmp_prefix ++ fresh taken).
    split; [exact Hin | apply strip_prefix_app]. }
  split.
  - set_solver.
  - apply not_elem_of_dom. set_solver.
Qed.

Lemma rmtree_gone (d p : string) (f : FS) :
  in_tree d p = true ->
  (p ∉ dirs (rmtree d f)) /\ (files (rmtree d f) !! p = None).
Proof.
  intros Hin. split.
  - unfold rmtree; simpl. rewrite elem_of_filter. intros [Hout _]. congruence.
  - unfold rmtree; simpl. apply map_lookup_filter_None. right.
    intros x _. simpl. congruence.
Qed.

(** ** What extraction leaves *)






(** ** Running generators to the end *)

Lemma drain_with_cleanup (d : string) (s : Step) :
  drain (with_cleanup d s) =
  let '(lines, o, w) := drain s in (lines, o, set_fs (rmtree d (fs w)) w).
Proof.
  induction s as [line w resume IH | w | e w]; simpl; try reflexivity.
  rewrite IH. by destruct (drain (resume w)) as [[lines o] w'].
Qed.

Lemma drain_emit (lines : list string) (fin : World -> Step) (w : World) :
  drain (emit lines fin w) =
  let '(l, o, w') := drain (fin w) in ((lines ++ l)%list, o, w').
Proof.
  induction lines as [| line rest IH]; simpl.
  - by destruct (drain (fin w)) as [[l o] w'].
  - rewrite IH. by destruct (drain (fin w)) as [[l o] w'].
Qed.

Lemma drain_execute_cmd (cmd : list string) (w : World) :
  drain (execute_cmd cmd true w) =
  match os_exec cmd (environ w) (fs w) with
  | None => ([], Raised (OSError "cannot launch"), launched cmd w)
  | Some p =>
      (p_out p, exit_outcome cmd p,
       set_fs (p_effect p (fs w)) (launched cmd w))
  end.
Proof.
  unfold execute_cmd, exit_outcome, launched.
  destruct (os_exec cmd (environ w) (fs w)) as [p |]; [| reflexivity].
  rewrite drain_emit. simpl.
  destruct (p_ret p =? 0); simpl; by rewrite app_nil_r.
Qed.

Lemma consume_execute_cmd (cmd : list string) (w : World) :
  consume (execute_cmd cmd true) w =
  match os_exec cmd (environ w) (fs w) with
  | None => ([], Raised (OSError "cannot launch"), launched cmd w)
  | Some p =>
      (p_out p, exit_outcome cmd p,
       set_fs (p_effect p (fs w)) (launched cmd w))
  end.
Proof. apply drain_execute_cmd. Qed.

(** ** [build]: laziness and the missing client *)


(** C2.  Without the docker client on the host, consuming the sequence
    [build] returns raises the [RuntimeError] of the guard at once: no line
    is produced, no subprocess is launched, the world is untouched, and the
    error is not the [CalledProcessError] of a failed operation. *)
Theorem build_without_client_raises (self : DockerEngine) (k : BuildKwargs) (w : World) :
  which "docker" w = false ->
  exists (g : generator) (w' : World),
    build self k w = (inr g, w)
    /\ consume g w =
       ([], Raised (RuntimeError "The docker commandline client must be installed"), w')
    /\ new_procs w w' = []
    /\ w' = w
    /\ (forall ret cmd,
          RuntimeError "The docker commandline client must be installed"
          <> CalledProcessError ret cmd).
Proof.
  intros Hno. exists (build_body self k), w.
  split; [reflexivity |]. split.
  - unfold consume, next, build_body. by rewrite Hno.
  - split; [by apply new_procs_same |]. split; [reflexivity | discriminate].
Qed.

(** ** [build] from an archive: the scoped directory *)





(** ** The argument list *)




(** [build] never reads [path] while it assembles the flags. *)
Lemma build_args_ignore_path (self : DockerEngine) (k : BuildKwargs) (p : string) :
  build_args self (with_path p k) = build_args self k.
Proof. reflexivity. Qed.


(** ** [push] *)

(** Entering [docker_login], step by step. *)
Lemma docker_login_unfold (self : DockerEngine) (u p r : string) (w : World) :
  docker_login self u p r w =
  let d := mkdtemp_name (fs w) in
  match login_fs w with
  | inl e => (inl e, set_fs (rmtree d (mkdir d (fs w))) w)
  | inr f2 =>
      let w2 := launched (login_command u p r) (set_fs f2 w) in
      match os_exec (login_command u p r) (environ w) f2 with
      | None => (inl (OSError "cannot launch"), set_fs (rmtree d f2) w2)
      | Some pr =>
          if p_ret pr =? 0 then (inr d, set_fs (p_effect pr f2) w2)
          else (inl (CalledProcessError (p_ret pr) (login_command u p r)),
                set_fs (rmtree d (p_effect pr f2)) w2)
      end
  end.
Proof.
  unfold docker_login, login_fs, docker_config_name, mkdtemp, check_call.
  cbv zeta. simpl fs. simpl cwd.
  destruct (if exists_ _ _ _ then _ else _) as [e | f2]; [reflexivity |].
  simpl environ. simpl fs. unfold login_command.
  destruct (os_exec _ (environ w) f2) as [pr |]; [| reflexivity].
  by destruct (p_ret pr =? 0).
Qed.

(** Entering [docker_login]: the one process it may launch is the login
    command, and it is given the environment of the caller as it is. *)
Lemma docker_login_procs (self : DockerEngine) (u p r : string) (w : World) :
  exists l : list Spawn,
    procs (docker_login self u p r w).2 = (procs w ++ l)%list
    /\ environ (docker_login self u p r w).2 = environ w
    /\ Forall (fun sp => sp_env sp = environ w
                         /\ sp_argv sp = login_command u p r) l.
Proof.
  rewrite docker_login_unfold. cbv zeta.
  destruct (login_fs w) as [e | f2].
  - exists []. simpl. rewrite app_nil_r. by repeat split.
  - exists [mkSpawn (login_command u p r) (environ w) f2].
    destruct (os_exec _ _ f2) as [pr |]; simpl.
    + destruct (p_ret pr =? 0); simpl; repeat split; by repeat constructor.
    + repeat split; by repeat constructor.
Qed.

Lemma login_kwargs_nonempty (creds : gmap string string) (x : string * string * string) :
  login_kwargs creds = inr x -> creds <> ∅.
Proof.
  unfold login_kwargs. intros Hk ->. by rewrite lookup_empty in Hk.
Qed.

(** Consuming [push] when the credentials bind to [docker_login]. *)
Lemma consume_push_login
    (self : DockerEngine) (image_spec u p r : string) (w : World) :
  login_kwargs (registry_credentials self) = inr (u, p, r) ->
  consume (push_body self image_spec) w =
  match docker_login self u p r w with
  | (inl e, w') => ([], Raised e, w')
  | (inr d, w') =>
      let '(lines, o, w'') := consume (execute_cmd (push_command image_spec) true) w' in
      (lines, o, set_fs (rmtree d (fs w'')) w'')
  end.
Proof.
  intros Hk. unfold consume at 1. unfold next, push_body.
  rewrite bool_decide_eq_false_2 by (by eapply login_kwargs_nonempty).
  simpl negb. cbv iota. rewrite Hk.
  destruct (docker_login self u p r w) as [[e | d] w']; [reflexivity |].
  by rewrite drain_with_cleanup.
Qed.


(** Every process a consumed [push] has launched is the login command or
    the plain push, and runs in the caller's environment. *)
Lemma push_procs (self : DockerEngine) (image_spec : string) (w : World) :
  exists l : list Spawn,
    procs (consume (push_body self image_spec) w).2 = (procs w ++ l)%list
    /\ Forall (fun sp =>
                 sp_env sp = environ w
                 /\ (sp_argv sp = push_command image_spec
                     \/ exists u p r, sp_argv sp = login_command u p r)) l.
Proof.
  unfold consume, next, push_body.
  destruct (negb (bool_decide (registry_credentials self = ∅))).
  - destruct (login_kwargs (registry_credentials self)) as [e | [[u p] r]].
    + exists []. simpl. rewrite app_nil_r. split; [reflexivity | constructor].
    + destruct (docker_login_procs self u p r w) as (l & Hl & Henv & Hall).
      destruct (docker_login self u p r w) as [[e | d] w1]; simpl in *.
      * exists l. split; [assumption |].
        eapply Forall_impl; [exact Hall |]. intros sp [? ?]; eauto 6.
      * rewrite drain_with_cleanup, drain_execute_cmd.
        exists (l ++ [mkSpawn (push_command image_spec) (environ w1) (fs w1)])%list.
        assert (Hboth :
          Forall (fun sp =>
                    sp_env sp = environ w
                    /\ (sp_argv sp = push_command image_spec
                        \/ exists u p r, sp_argv sp = login_command u p r))
            (l ++ [mkSpawn (push_command image_spec) (environ w1) (fs w1)])).
        { apply Forall_app. split.
          - eapply Forall_impl; [exact Hall |]. intros sp [? ?]; eauto 6.
          - constructor; [| constructor]. simpl. split; [exact Henv | by left]. }
        destruct (os_exec _ _ _) as [pr |]; simpl; rewrite Hl, <- app_assoc;
          by split.
  - rewrite drain_execute_cmd.
    exists [mkSpawn (push_command image_spec) (environ w) (fs w)].
    destruct (os_exec _ _ _) as [pr |]; simpl;
      (split; [reflexivity |]); repeat constructor.
Qed.




(** ** [inspect_image] *)

(** C5.  [inspect_image] has two results only.  An error of the API client
    (for a reference that does not resolve, [ImageNotFound]) is raised as
    it is; a missing key is raised as well; and an [Image] is returned only
    with both its tags and its configuration taken from the answer. *)
Theorem inspect_image_all_or_nothing (self : DockerEngine) (image : string) (w : World) :
  (forall msg e',
      sdk (InspectImage image) (daemon w) = (inl (ImageNotFound msg), e') ->
      (inspect_image self image w).1 = inl (ImageNotFound msg))
  /\ (forall a e' t c,
        sdk (InspectImage image) (daemon w) = (inr a, e') ->
        getitem a "RepoTags" = inr t ->
        getitem a "Config" = inr c ->
        (inspect_image self image w).1 = inr (mkImage t c))
  /\ (forall img,
        (inspect_image self image w).1 = inr img ->
        exists a e',
          sdk (InspectImage image) (daemon w) = (inr a, e')
          /\ getitem a "RepoTags" = inr (tags img)
          /\ getitem a "Config" = inr (config img)).
Proof.
  unfold inspect_image, bind, request, lift, ret.
  destruct (sdk (InspectImage image) (daemon w)) as [[e | a] e'] eqn:Hsdk; simpl.
  - split; [| split].
    + intros msg e0 Heq. by inversion Heq.
    + intros a e0 t c Heq. inversion Heq.
    + intros img Heq. inversion Heq.
  - split; [| split].
    + intros msg e0 Heq. inversion Heq.
    + intros a0 e0 t c Heq Ht Hc. inversion Heq; subst. by rewrite Ht, Hc.
    + intros img. destruct (getitem a "RepoTags") as [e | t] eqn:Ht; simpl;
        [intros Heq; inversion Heq |].
      destruct (getitem a "Config") as [e | c] eqn:Hc; simpl;
        intros Heq; inversion Heq; subst. by exists a, e'.
Qed.

(** ** [run] and [wait] *)

(** C6.  [run] asks the SDK for a client and for a container started with
    [detach=True], and nothing else: it never waits.  When the call is well
    formed (the extra keywords repeat neither [detach] nor [image]) and the
    engine accepts, the handle it returns holds the container the engine
    answered with; [wait] on that handle is the one request that waits, and
    its answer is handed back.  When the extra keywords repeat [detach] or
    [image], no container is asked for: [run] raises [TypeError] once it has
    the client. *)
Theorem run_returns_detached_handle
    (self : DockerEngine) (image_spec : string) (a : RunArgs) (w : World) :
  let kw :=
    {| rk_command := command a;
       rk_environment := py_or (environment a) (JList []);
       rk_detach := true;
       rk_ports := py_or (ports a) (JObj []);
       rk_publish_all_ports := publish_all_ports a;
       rk_remove := remove_ a;
       rk_volumes := py_or (volumes a) (JObj []);
       rk_extra := kwargs a |} in
  Forall (fun c => c = FromEnv "auto" \/ c = ContainersRun image_spec kw)
    (new_calls w (run self image_spec a w).2)
  /\ (repeated_keyword (kwargs a) = None ->
      forall client e1 container e2 i,
        sdk (FromEnv "auto") (daemon w) = (inr client, e1) ->
        sdk (ContainersRun image_spec kw) e1 = (inr container, e2) ->
        getitem container "Id" = inr (JStr i) ->
        exists h w',
          run self image_spec a w = (inr h, w')
          /\ new_calls w w' = [FromEnv "auto"; ContainersRun image_spec kw]
          /\ heap w' !! _c h = Some (mkSdkContainer i container)
          /\ (wait h w').1 = (sdk (CWait i) e2).1
          /\ new_calls w' (wait h w').2 = [CWait i])
  /\ (forall key client e1,
        repeated_keyword (kwargs a) = Some key ->
        sdk (FromEnv "auto") (daemon w) = (inr client, e1) ->
        exists msg w',
          run self image_spec a w = (inl (TypeError msg), w')
          /\ new_calls w w' = [FromEnv "auto"]
          /\ heap w' = heap w).
Proof.
  intros kw. unfold run, bind, request, new_container, ret, raise. fold kw.
  destruct (repeated_keyword (kwargs a)) as [key |] eqn:Hrep.
  { destruct (sdk (FromEnv "auto") (daemon w)) as [[e | client] e1] eqn:H1; simpl.
    - split; [| split; [discriminate |]].
      + rewrite (new_calls_app w _ [FromEnv "auto"]) by reflexivity.
        repeat constructor.
      + intros ? ? ? _ Heq. inversion Heq.
    - split; [| split; [discriminate |]].
      + rewrite (new_calls_app w _ [FromEnv "auto"]) by reflexivity.
        repeat constructor.
      + intros key0 client0 e0 _ _. eexists _, _. split; [reflexivity |].
        split; [by apply new_calls_app | reflexivity]. }
  destruct (sdk (FromEnv "auto") (daemon w)) as [[e | client] e1] eqn:H1; simpl.
  - split; [| split; [| discriminate]].
    + rewrite (new_calls_app w _ [FromEnv "auto"]) by reflexivity.
      repeat constructor.
    + intros _ ? ? ? ? ? Heq. inversion Heq.
  - destruct (sdk (ContainersRun image_spec kw) e1)
      as [[e | container] e2] eqn:H2; simpl.
    + split; [| split; [| discriminate]].
      * rewrite (new_calls_app w _ [FromEnv "auto"; ContainersRun image_spec kw])
          by (simpl; by rewrite <- app_assoc).
        repeat constructor; by right.
      * intros _ ? ? ? ? ? Heq1 Heq2. inversion Heq1; subst.
        rewrite H2 in Heq2. inversion Heq2.
    + assert (Hcalls : forall w', calls w' =
                ((calls w ++ [FromEnv "auto"]) ++ [ContainersRun image_spec kw])%list ->
                new_calls w w' = [FromEnv "auto"; ContainersRun image_spec kw]).
      { intros w' Hw'. apply new_calls_app. rewrite Hw'. by rewrite <- app_assoc. }
      split; [| split; [| discriminate]].
      * destruct (getitem container "Id") as [e | [| | | i | |]]; simpl;
          rewrite Hcalls by reflexivity; repeat constructor; by right.
      * intros _ client0 e0 container0 e3 i Heq1 Heq2 Hid.
        inversion Heq1; subst. rewrite H2 in Heq2. inversion Heq2; subst.
        rewrite Hid. simpl. eexists _, _. split; [reflexivity |].
        split; [by apply Hcalls |]. simpl.
        split; [by rewrite lookup_insert_eq |].
        unfold wait, bind, deref, request. simpl. rewrite lookup_insert_eq. simpl.
        destruct (sdk (CWait i) e3) as [r e4]; simpl.
        split; [reflexivity |]. by apply new_calls_app.
Qed.

(** ** [status] and [exitcode] *)

(** C8.  [exitcode] and [status] leave the world as it is (no request is
    made, nothing changes) and depend on nothing but the attributes cached
    in the container object: in any world where the object is the same,
    whatever the daemon and its container have done since, they give the
    same answer.  The cache is what [reload] fetched last. *)
Theorem accessors_read_the_snapshot (self : DockerContainer) (w : World) :
  (exitcode self w).2 = w
  /\ (status self w).2 = w
  /\ (forall w2,
        heap w2 !! _c self = heap w !! _c self ->
        (exitcode self w2).1 = (exitcode self w).1
        /\ (status self w2).1 = (status self w).1)
  /\ (forall c a e',
        heap w !! _c self = Some c ->
        sdk (CReload (c_id c)) (daemon w) = (inr a, e') ->
        heap (reload self w).2 !! _c self = Some (mkSdkContainer (c_id c) a)
        /\ new_calls w (reload self w).2 = [CReload (c_id c)]).
Proof.
  unfold exitcode, status, sdk_status, reload, sdk_reload, bind, deref, lift, ret,
    request.
  split; [| split; [| split]].
  - destruct (heap w !! _c self) as [c |]; simpl; [| reflexivity].
    destruct (getitem (attrs c) "State") as [e | st]; simpl; [reflexivity |].
    by destruct (getitem st "ExitCode").
  - destruct (heap w !! _c self) as [c |]; simpl; [| reflexivity].
    destruct (getitem (attrs c) "State") as [e | st]; simpl; [reflexivity |].
    by destruct st.
  - intros w2 Hsame. rewrite Hsame.
    destruct (heap w !! _c self) as [c |]; simpl; [| by split].
    destruct (getitem (attrs c) "State") as [e | st]; simpl; [by split |].
    split; [by destruct (getitem st "ExitCode") |]. by destruct st.
  - intros c a e' Hc Hsdk. rewrite Hc. simpl. rewrite Hsdk. simpl.
    split; [by rewrite lookup_insert_eq | by apply new_calls_app].
Qed.

(** ** [logs]: the [since] timestamp *)

Lemma rne_floor_or_next (n d : Z) :
  0 < d ->
  rne n d = n / d \/ (rne n d = n / d + 1 /\ d <= 2 * (n mod d)).
Proof.
  intros Hd. unfold rne.
  destruct (Z.ltb_spec (2 * (n mod d)) d) as [Hlt | Hge]; [left; reflexivity |].
  destruct (Z.ltb_spec d (2 * (n mod d))); [right; lia |].
  destruct (Z.even (n / d)); [left; reflexivity | right; lia].
Qed.

(** Below [2^34] seconds the quotient has at least 19 binary digits after
    the point. *)
Lemma ilog2_ratio_bound (a : Z) :
  0 < a < 2 ^ 34 * 1000000 -> ilog2_ratio a 1000000 <= 33.
Proof.
  intros [Hpos Hlt]. unfold ilog2_ratio.
  assert (Hb : Z.log2 1000000 = 19) by reflexivity.
  rewrite Hb.
  assert (Hla : Z.log2 a < 54).
  { apply Z.log2_lt_pow2; [assumption |]. lia. }
  destruct (Z.leb_spec 0 (Z.log2 a - 19)) as [Hnn | Hneg].
  - destruct (Z.ltb_spec a (1000000 * 2 ^ (Z.log2 a - 19))) as [Hbel | Hab]; [lia |].
    destruct (Z.eq_dec (Z.log2 a) 53) as [E | NE]; [| lia].
    rewrite E in Hab. change (53 - 19) with 34 in Hab. lia.
  - destruct (_ <? _); lia.
Qed.

(** From the epoch up to [2^34] seconds after it, rounding the quotient to
    a float never reaches the next integer: [int(timestamp)] is the whole
    second. *)
Lemma int_timestamp_floor (a : Z) :
  0 <= a < 2 ^ 34 * 1000000 ->
  int_of_float (true_divide a 1000000) = a / 1000000.
Proof.
  intros [Hnn Hlt]. unfold true_divide.
  destruct (Z.eqb_spec a 0) as [-> | Hne]; [reflexivity |].
  assert (Hpos : 0 < a) by lia.
  rewrite (Z.abs_eq a) by lia.
  pose proof (ilog2_ratio_bound a (conj Hpos Hlt)) as HL.
  set (L := ilog2_ratio a 1000000) in *.
  destruct (Z.ltb_spec (L - 52) 0) as [He | He]; [| lia].
  rewrite (Z.sgn_pos a) by lia. rewrite Z.mul_1_l.
  unfold int_of_float.
  destruct (Z.leb_spec 0 (L - 52)) as [? | _]; [lia |].
  set (k := - (L - 52)).
  assert (Hk : 19 <= k) by (unfold k; lia).
  assert (HK : 2 ^ 19 <= 2 ^ k) by (apply Z.pow_le_mono_r; lia).
  change (2 ^ 19) with 524288 in HK.
  set (K := 2 ^ k) in *.
  pose proof (Z.div_mod a 1000000 ltac:(lia)) as Ha.
  pose proof (Z.mod_pos_bound a 1000000 ltac:(lia)) as Hr.
  pose proof (Z.div_mod (a * K) 1000000 ltac:(lia)) as Hn.
  pose proof (Z.mod_pos_bound (a * K) 1000000 ltac:(lia)) as Hrr.
  pose proof (rne_floor_or_next (a * K) 1000000 ltac:(lia)) as Hrne.
  assert (Hs : 0 <= a / 1000000) by (apply Z.div_pos; lia).
  set (s := a / 1000000) in *. set (r := a mod 1000000) in *.
  set (q := a * K / 1000000) in *. set (rr := (a * K) mod 1000000) in *.
  assert (Hq0 : 0 <= q) by (apply Z.div_pos; nia).
  assert (Hm : s * K <= rne (a * K) 1000000 < (s + 1) * K).
  { destruct Hrne as [-> | [-> Hhalf]]; nia. }
  rewrite Z.quot_div_nonneg by lia.
  symmetry. apply Z.div_unique with (r := rne (a * K) 1000000 - s * K); lia.
Qed.

(** C4 (as amended).  For two [since] strings that denote instants of the
    same whole second, from the epoch up to [2^34] seconds after it, [logs]
    does the same thing: the integer it passes to the engine is that whole
    second for both.  Truncating is idempotent there: the instant that the
    truncated value denotes truncates to the same integer. *)
Theorem logs_since_same_second
    (self : DockerContainer) (stream timestamps : bool)
    (s1 s2 : string) (d1 d2 : datetime) (w : World) :
  truthy s1 = true -> truthy s2 = true ->
  parse_date s1 = inr d1 -> parse_date s2 = inr d2 ->
  0 <= delta_us d1 < 2 ^ 34 * 1000000 ->
  0 <= delta_us d2 < 2 ^ 34 * 1000000 ->
  whole_second d1 = whole_second d2 ->
  logs self stream timestamps (Some s1) w = logs self stream timestamps (Some s2) w
  /\ int_of_float (timestamp d1) = whole_second d1
  /\ int_of_float (timestamp d2) = whole_second d1
  /\ (forall c, heap w !! _c self = Some c ->
        new_calls w (logs self stream timestamps (Some s1) w).2 =
        [CLogs (c_id c) stream timestamps (JInt (whole_second d1))])
  /\ (forall d', delta_us d' = int_of_float (timestamp d1) * 1000000 ->
        int_of_float (timestamp d') = int_of_float (timestamp d1)).
Proof.
  intros Ht1 Ht2 Hp1 Hp2 Hr1 Hr2 Hsame.
  assert (H1 : int_of_float (timestamp d1) = whole_second d1)
    by (apply int_timestamp_floor; assumption).
  assert (H2 : int_of_float (timestamp d2) = whole_second d1)
    by (rewrite Hsame; apply int_timestamp_floor; assumption).
  split; [| split; [assumption | split; [assumption | split]]].
  - unfold logs. rewrite Ht1, Ht2. unfold bind, lift, ret.
    rewrite Hp1, Hp2, H1, H2. reflexivity.
  - intros c Hc. unfold logs. rewrite Ht1. unfold bind, lift, ret, deref, request.
    rewrite Hp1, H1, Hc. simpl.
    destruct (sdk _ (daemon w)) as [r e']. simpl. by apply new_calls_app.
  - intros d' Hd'. rewrite H1 in *. unfold timestamp. rewrite Hd'.
    unfold whole_second in *.
    pose proof (Z.div_mod (delta_us d1) 1000000 ltac:(lia)) as Hdm.
    pose proof (Z.mod_pos_bound (delta_us d1) 1000000 ltac:(lia)) as Hmod.
    assert (Hq : 0 <= delta_us d1 / 1000000) by (apply Z.div_pos; lia).
    rewrite int_timestamp_floor by lia.
    apply Z.div_mul. lia.
Qed.

End Properties.

(** * On the reference host *)

(** ** [push] with credentials rewrites the user's configuration *)

(** C1.  [docker_login] copies the user's configuration into a temporary
    directory but launches [docker login] with the caller's environment
    unchanged ([push_procs]), so the client still works on the user's file.
    On the reference host: the push succeeds, both processes ran with the
    ambient environment, the copy in the temporary directory was never
    written to, and the user's file has changed. *)
Theorem push_login_rewrites_ambient_config :
  let '(lines, o, w') :=
    consume (H := ref_host) (push_body ref_engine_login "reg.example/img:1")
      ref_world in
  o = Finished
  /\ map sp_argv (procs w') =
     [login_command "u" "p" "reg.example"; push_command "reg.example/img:1"]
  /\ map sp_env (procs w') = [environ ref_world; environ ref_world]
  /\ map (fun sp => files (sp_fs sp) !! "/tmp/tmp0/config.json") (procs w') =
     [Some "auth old.example x:y;"; Some "auth old.example x:y;"]
  /\ files (fs ref_world) !! "/root/.docker/config.json" =
     Some "auth old.example x:y;"
  /\ files (fs w') !! "/root/.docker/config.json" =
     Some "auth old.example x:y;auth reg.example u:p;"
  /\ files (fs w') !! "/root/.docker/config.json" <>
     files (fs ref_world) !! "/root/.docker/config.json".
Proof. vm_compute. repeat split; discriminate. Qed.

(** ** Counterexamples *)


(** C4 as stated fails before the epoch: [int()] rounds towards zero, so
    the start of the second 1969-12-31T23:59:59 is passed on as [-1] and
    its middle as [0]. *)
Lemma logs_since_before_epoch_differs :
  let d1 := mkDatetime 1969 12 31 23 59 59 0 0 in
  let d2 := mkDatetime 1969 12 31 23 59 59 500000 0 in
  ref_parse_date "1969-12-31T23:59:59Z" = inr d1
  /\ ref_parse_date "1969-12-31T23:59:59.5Z" = inr d2
  /\ whole_second d1 = whole_second d2
  /\ calls (logs (H := ref_host) held_container false false
              (Some "1969-12-31T23:59:59Z") held_world).2 =
     [CLogs "c0ffee" false false (JInt (-1))]
  /\ calls (logs (H := ref_host) held_container false false
              (Some "1969-12-31T23:59:59.5Z") held_world).2 =
     [CLogs "c0ffee" false false (JInt 0)].
Proof. vm_compute. repeat split. Qed.

(** It also fails from [2^34] seconds after the epoch on, where the float
    nearest to the last microsecond of a second is the next second. *)
Lemma logs_since_far_future_differs :
  let d1 := mkDatetime 2600 1 1 0 0 0 0 0 in
  let d2 := mkDatetime 2600 1 1 0 0 0 999999 0 in
  whole_second d1 = whole_second d2
  /\ int_of_float (timestamp d1) = 19880899200
  /\ int_of_float (timestamp d2) = 19880899201.
Proof. vm_compute. repeat split. Qed.

(** ** Instances *)

Lemma build_without_client_raises_witness :
  which (H := ref_host) "docker" bare_world = false
  /\ exists (g : generator) (w' : World),
       build (H := ref_host) ref_engine no_kwargs bare_world = (inr g, bare_world)
       /\ consume g bare_world =
          ([], Raised (RuntimeError "The docker commandline client must be installed"), w')
       /\ new_procs bare_world w' = []
       /\ w' = bare_world
       /\ (forall ret cmd,
             RuntimeError "The docker commandline client must be installed"
             <> CalledProcessError ret cmd).
Proof.
  split; [reflexivity |].
  apply (build_without_client_raises (H := ref_host) ref_engine no_kwargs bare_world).
  reflexivity.
Defined.


Lemma logs_since_same_second_witness :
  let d1 := mkDatetime 2024 2 29 12 0 0 0 0 in
  let d2 := mkDatetime 2024 2 29 12 0 0 999999 0 in
  ref_parse_date "2024-02-29T12:00:00Z" = inr d1
  /\ ref_parse_date "2024-02-29T12:00:00.999999Z" = inr d2
  /\ whole_second d1 = 1709208000
  /\ whole_second d2 = 1709208000
  /\ logs (H := ref_host) held_container false false
        (Some "2024-02-29T12:00:00Z") held_world =
     logs (H := ref_host) held_container false false
        (Some "2024-02-29T12:00:00.999999Z") held_world
  /\ int_of_float (timestamp d2) = whole_second d1.
Proof.
  intros d1 d2.
  assert (Hp1 : ref_parse_date "2024-02-29T12:00:00Z" = inr d1)
    by (vm_compute; reflexivity).
  assert (Hp2 : ref_parse_date "2024-02-29T12:00:00.999999Z" = inr d2)
    by (vm_compute; reflexivity).
  assert (Hs1 : whole_second d1 = 1709208000) by (vm_compute; reflexivity).
  assert (Hs2 : whole_second d2 = 1709208000) by (vm_compute; reflexivity).
  assert (Hr1 : 0 <= delta_us d1 < 2 ^ 34 * 1000000) by (vm_compute; split; [discriminate | reflexivity]).
  assert (Hr2 : 0 <= delta_us d2 < 2 ^ 34 * 1000000) by (vm_compute; split; [discriminate | reflexivity]).
  destruct (logs_since_same_second (H := ref_host) held_container false false
              "2024-02-29T12:00:00Z" "2024-02-29T12:00:00.999999Z" d1 d2 held_world
              eq_refl eq_refl Hp1 Hp2 Hr1 Hr2 (eq_trans Hs1 (eq_sym Hs2)))
    as (Hlogs & _ & Hint & _).
  repeat split; assumption.
Defined.




Lemma run_returns_detached_handle_witness :
  (exists h w' i,
     run (H := ref_host) ref_engine "demo:1" ref_run_args ref_world = (inr h, w')
     /\ new_calls w' (wait (H := ref_host) h w').2 = [CWait i])
  /\ (exists msg w',
        run (H := ref_host) ref_engine "demo:1" detach_run_args ref_world =
        (inl (TypeError msg), w')
        /\ new_calls ref_world w' = [FromEnv "auto"]
        /\ heap w' = heap ref_world).
Proof.
  split.
  - destruct (run_returns_detached_handle (H := ref_host) ref_engine "demo:1"
                ref_run_args ref_world) as (_ & Hok & _).
    destruct (Hok eq_refl JNull (O : @engine ref_host) (ref_container "created" 0)
                (O : @engine ref_host) "c0ffee" eq_refl eq_refl eq_refl)
      as (h & w' & Hrun & _ & _ & _ & Hwait).
    by exists h, w', "c0ffee".
  - destruct (run_returns_detached_handle (H := ref_host) ref_engine "demo:1"
                detach_run_args ref_world) as (_ & _ & Hbad).
    exact (Hbad "detach" JNull (O : @engine ref_host) eq_refl eq_refl).
Defined.

(** * Further properties of the adapter *)

Section Further.
Context `{External}.

(** ** [logs] *)

(** X1.  A [since] that is [None] or empty is handed to the engine as it
    is: the timestamp parser is not consulted. *)
Theorem logs_falsy_since_is_forwarded
    (self : DockerContainer) (stream timestamps : bool) (since : option string)
    (c : SdkContainer) (w : World) :
  heap w !! _c self = Some c ->
  since = None \/ since = Some "" ->
  logs self stream timestamps since w =
  request
    (CLogs (c_id c) stream timestamps
       (match since with Some s => JStr s | None => JNull end)) w.
Proof.
  intros Hc [-> | ->]; unfold logs, bind, ret, deref; simpl; by rewrite Hc.
Qed.

(** X2.  A [since] that the parser rejects makes [logs] raise the parser's
    error before anything is asked of the engine. *)
Theorem logs_unparsable_since_makes_no_request
    (self : DockerContainer) (stream timestamps : bool) (s : string) (e : exn)
    (w : World) :
  truthy s = true ->
  parse_date s = inl e ->
  logs self stream timestamps (Some s) w = (inl e, w).
Proof.
  intros Ht Hp. unfold logs, bind, lift. by rewrite Ht, Hp.
Qed.

Lemma true_divide_opp (a b : Z) :
  true_divide (- a) b = (- (true_divide a b).1, (true_divide a b).2).
Proof.
  unfold true_divide. rewrite Z.abs_opp, Z.sgn_opp.
  destruct (Z.eqb_spec a 0) as [-> | Hne].
  - reflexivity.
  - destruct (Z.eqb_spec (- a) 0) as [Hz | _]; [lia |]. simpl. f_equal. lia.
Qed.

Lemma int_of_float_opp (m e : Z) :
  int_of_float (- m, e) = - int_of_float (m, e).
Proof.
  unfold int_of_float. destruct (Z.leb_spec 0 e) as [Hnn | Hneg]; [lia |].
  apply Z.quot_opp_l. apply Z.pow_nonzero; lia.
Qed.

(** X3.  Within [2^34] seconds of the epoch the integer [logs] passes on is
    the instant's microseconds divided by a million and rounded towards
    zero; from the epoch on it is therefore never later than the instant
    and less than a second before it. *)
Theorem since_rounds_toward_zero (dt : datetime) :
  - (2 ^ 34 * 1000000) < delta_us dt < 2 ^ 34 * 1000000 ->
  int_of_float (timestamp dt) = Z.quot (delta_us dt) 1000000
  /\ (0 <= delta_us dt ->
      int_of_float (timestamp dt) * 1000000 <= delta_us dt
      < (int_of_float (timestamp dt) + 1) * 1000000).
Proof.
  intros [Hlo Hhi]. unfold timestamp.
  assert (Hquot : int_of_float (true_divide (delta_us dt) 1000000)
                  = Z.quot (delta_us dt) 1000000).
  { destruct (Z.le_gt_cases 0 (delta_us dt)) as [Hnn | Hneg].
    - rewrite int_timestamp_floor by lia. by rewrite Z.quot_div_nonneg by lia.
    - replace (delta_us dt) with (- - delta_us dt) at 1 by lia.
      rewrite true_divide_opp.
      destruct (true_divide (- delta_us dt) 1000000) as [m e] eqn:Hme.
      cbn [fst snd].
      rewrite int_of_float_opp, <- Hme, int_timestamp_floor by lia.
      rewrite <- (Z.quot_div_nonneg (- delta_us dt)) by lia.
      rewrite Z.quot_opp_l by lia. lia. }
  split; [exact Hquot |]. intros Hnn. rewrite Hquot.
  rewrite Z.quot_div_nonneg by lia.
  pose proof (Z.div_mod (delta_us dt) 1000000 ltac:(lia)).
  pose proof (Z.mod_pos_bound (delta_us dt) 1000000 ltac:(lia)). lia.
Qed.

(** ** The container handle *)

(** The accessors read the object heap and nothing else. *)
Lemma accessors_same_heap (self : DockerContainer) (w w' : World) :
  heap w' = heap w ->
  (status self w').1 = (status self w).1
  /\ (exitcode self w').1 = (exitcode self w).1.
Proof.
  intros Hheap.
  unfold status, sdk_status, exitcode, bind, deref, lift, ret. rewrite Hheap.
  destruct (heap w !! _c self) as [c0 |]; simpl; [| by split].
  destruct (getitem (attrs c0) "State") as [e0 | st0]; simpl; [by split |].
  split; [by destruct st0 | by destruct (getitem st0 "ExitCode")].
Qed.

(** A method that forwards one request about the wrapped container. *)
Lemma forwarded_request (r : nat) (call : string -> ApiCall)
    (c : SdkContainer) (w : World) :
  heap w !! r = Some c ->
  let res := bind (deref r) (fun c => request (call (c_id c))) w in
  res.1 = (sdk (call (c_id c)) (daemon w)).1
  /\ daemon res.2 = (sdk (call (c_id c)) (daemon w)).2
  /\ new_calls w res.2 = [call (c_id c)]
  /\ heap res.2 = heap w.
Proof.
  intros Hc. unfold bind, deref, request. rewrite Hc. simpl.
  destruct (sdk (call (c_id c)) (daemon w)) as [r' e']. simpl.
  repeat split. by apply new_calls_app.
Qed.

(** X4.  [kill], [stop], [remove] and [wait] each send exactly one request,
    about the wrapped container, and hand back the engine's answer or
    error as it is.  None of them refreshes the cached attributes: [status]
    and [exitcode] read afterwards what they read before, until [reload]. *)
Theorem lifecycle_calls_leave_snapshot_stale
    (self : DockerContainer) (signal : string) (timeout : Z)
    (c : SdkContainer) (w : World) :
  heap w !! _c self = Some c ->
  Forall (fun '(call, res) =>
            res.1 = (sdk call (daemon w)).1
            /\ new_calls w res.2 = [call]
            /\ (status self res.2).1 = (status self w).1
            /\ (exitcode self res.2).1 = (exitcode self w).1)
    [(CKill (c_id c) signal, kill self signal w);
     (CStop (c_id c) timeout, stop self timeout w);
     (CRemove (c_id c), remove self w);
     (CWait (c_id c), wait self w)].
Proof.
  intros Hc.
  pose proof (accessors_same_heap self w) as Hstale.
  repeat constructor.
  - by destruct (forwarded_request (_c self) (fun i => CKill i signal) c w Hc) as (? & _).
  - by destruct (forwarded_request (_c self) (fun i => CKill i signal) c w Hc) as (_ & _ & ? & _).
  - apply Hstale. by destruct (forwarded_request (_c self) (fun i => CKill i signal) c w Hc) as (_ & _ & _ & ?).
  - apply Hstale. by destruct (forwarded_request (_c self) (fun i => CKill i signal) c w Hc) as (_ & _ & _ & ?).
  - by destruct (forwarded_request (_c self) (fun i => CStop i timeout) c w Hc) as (? & _).
  - by destruct (forwarded_request (_c self) (fun i => CStop i timeout) c w Hc) as (_ & _ & ? & _).
  - apply Hstale. by destruct (forwarded_request (_c self) (fun i => CStop i timeout) c w Hc) as (_ & _ & _ & ?).
  - apply Hstale. by destruct (forwarded_request (_c self) (fun i => CStop i timeout) c w Hc) as (_ & _ & _ & ?).
  - by destruct (forwarded_request (_c self) CRemove c w Hc) as (? & _).
  - by destruct (forwarded_request (_c self) CRemove c w Hc) as (_ & _ & ? & _).
  - apply Hstale. by destruct (forwarded_request (_c self) CRemove c w Hc) as (_ & _ & _ & ?).
  - apply Hstale. by destruct (forwarded_request (_c self) CRemove c w Hc) as (_ & _ & _ & ?).
  - by destruct (forwarded_request (_c self) CWait c w Hc) as (? & _).
  - by destruct (forwarded_request (_c self) CWait c w Hc) as (_ & _ & ? & _).
  - apply Hstale. by destruct (forwarded_request (_c self) CWait c w Hc) as (_ & _ & _ & ?).
  - apply Hstale. by destruct (forwarded_request (_c self) CWait c w Hc) as (_ & _ & _ & ?).
Qed.

(** X5.  After a [reload] that the engine answers, [exitcode] and [status]
    read the answer: [exitcode] is its [State.ExitCode], and [status] its
    [State.Status]. *)
Theorem reload_refreshes_accessors
    (self : DockerContainer) (c : SdkContainer) (a st : json) (e' : engine)
    (w : World) :
  heap w !! _c self = Some c ->
  sdk (CReload (c_id c)) (daemon w) = (inr a, e') ->
  getitem a "State" = inr st ->
  (exists fields, st = JObj fields) ->
  let w' := (reload self w).2 in
  (exitcode self w').1 = getitem st "ExitCode"
  /\ (status self w').1 = getitem st "Status".
Proof.
  intros Hc Hsdk Hst [fields ->].
  unfold reload, sdk_reload, exitcode, status, sdk_status, bind, deref, request, lift.
  rewrite Hc. simpl. rewrite Hsdk. simpl. rewrite lookup_insert_eq. simpl.
  rewrite Hst. simpl. split; by destruct (assoc _ fields).
Qed.

(** X6.  When the engine refuses a [reload] (the container is gone, say),
    [reload] raises that error and the cached attributes stay: [exitcode]
    and [status] go on reading the old snapshot. *)
Theorem failed_reload_keeps_snapshot
    (self : DockerContainer) (c : SdkContainer) (e : exn) (e' : engine)
    (w : World) :
  heap w !! _c self = Some c ->
  sdk (CReload (c_id c)) (daemon w) = (inl e, e') ->
  let w' := (reload self w).2 in
  (reload self w).1 = inl e
  /\ heap w' = heap w
  /\ (exitcode self w').1 = (exitcode self w).1
  /\ (status self w').1 = (status self w).1.
Proof.
  intros Hc Hsdk w'.
  assert (Hres : reload self w = (inl e, w') /\ heap w' = heap w).
  { subst w'. unfold reload, sdk_reload, bind, deref, request.
    rewrite Hc. simpl. by rewrite Hsdk. }
  destruct Hres as [Hres Hheap]. rewrite Hres.
  destruct (accessors_same_heap self w w' Hheap) as [Hstatus Hexit].
  by repeat split.
Qed.

(** X7.  [exitcode] has no default: it returns a value only when the
    cached attributes hold one under [State.ExitCode]; otherwise it raises
    (a [KeyError] for a missing key). *)
Theorem exitcode_only_from_snapshot (self : DockerContainer) (v : json) (w : World) :
  (exitcode self w).1 = inr v ->
  exists c st,
    heap w !! _c self = Some c
    /\ getitem (attrs c) "State" = inr st
    /\ getitem st "ExitCode" = inr v.
Proof.
  unfold exitcode, bind, deref, lift.
  destruct (heap w !! _c self) as [c |]; simpl; [| discriminate].
  destruct (getitem (attrs c) "State") as [e | st] eqn:Hst; simpl; [discriminate |].
  intros Hv. by exists c, st.
Qed.

(** ** [images] *)

Lemma image_tags_project (items : list json) (imgs : list Image) :
  image_tags items = inr imgs ->
  Forall2 (fun item img =>
             getitem item "RepoTags" = inr (tags img) /\ config img = JNull)
    items imgs.
Proof.
  revert imgs. induction items as [| item rest IH]; intros imgs; simpl.
  - intros Heq. inversion Heq. constructor.
  - destruct (getitem item "RepoTags") as [e | t] eqn:Ht; [discriminate |].
    destruct (image_tags rest) as [e | imgs']; [discriminate |].
    intros Heq. inversion Heq; subst. constructor; [by split | by apply IH].
Qed.

Lemma image_tags_error (items : list json) (e : exn) :
  image_tags items = inl e ->
  exists item, item ∈ items /\ getitem item "RepoTags" = inl e.
Proof.
  induction items as [| item rest IH]; simpl; [discriminate |].
  destruct (getitem item "RepoTags") as [e0 | t] eqn:Ht.
  - intros Heq. inversion Heq; subst. exists item. split; [constructor | exact Ht].
  - destruct (image_tags rest) as [e0 | imgs'] eqn:Hrest; [| discriminate].
    intros Heq. inversion Heq; subst.
    destruct (IH eq_refl) as (item' & Hin & Hget).
    exists item'. split; [by constructor | exact Hget].
Qed.

(** X8.  [images] makes one request and projects the answer entry by
    entry, in order: one [Image] per entry, with that entry's [RepoTags]
    and no configuration.  If any entry lacks [RepoTags] the whole call
    raises and no list is returned. *)
Theorem images_projects_every_entry
    (self : DockerEngine) (items : list json) (e' : engine) (w : World) :
  sdk Images (daemon w) = (inr (JList items), e') ->
  new_calls w (images self w).2 = [Images]
  /\ match (images self w).1 with
     | inr imgs =>
         Forall2 (fun item img =>
                    getitem item "RepoTags" = inr (tags img) /\ config img = JNull)
           items imgs
     | inl e => exists item, item ∈ items /\ getitem item "RepoTags" = inl e
     end.
Proof.
  intros Hsdk. unfold images, bind, request, lift. rewrite Hsdk. simpl.
  split; [by apply new_calls_app |].
  destruct (image_tags items) as [e | imgs] eqn:Htags.
  - by apply image_tags_error.
  - by apply image_tags_project.
Qed.

(** ** [run] *)

Lemma py_or_not_none (x default : json) : default <> JNull -> py_or x default <> JNull.
Proof.
  intros Hd. destruct x as [| [|] | [| q | q] | [| a s] | [| j l] | [| kv l]];
    simpl; try assumption; discriminate.
Qed.

(** X9.  Whatever the caller gives for [environment], [ports] and
    [volumes] ([None] included), the request [run] sends never carries
    [None] for them, always asks for a detached container, and passes the
    command, the two flags and the remaining keywords through unchanged.
    Those keywords repeat neither [detach] nor [image]: with such a keyword
    no request for a container is sent at all. *)
Theorem run_request_is_well_formed
    (self : DockerEngine) (image_spec : string) (a : RunArgs) (w : World)
    (spec : string) (kw : RunKwargs) :
  ContainersRun spec kw ∈ new_calls w (run self image_spec a w).2 ->
  spec = image_spec
  /\ rk_detach kw = true
  /\ rk_environment kw <> JNull /\ rk_ports kw <> JNull /\ rk_volumes kw <> JNull
  /\ rk_command kw = command a
  /\ rk_publish_all_ports kw = publish_all_ports a
  /\ rk_remove kw = remove_ a
  /\ rk_extra kw = kwargs a
  /\ assoc "detach" (rk_extra kw) = None
  /\ assoc "image" (rk_extra kw) = None.
Proof.
  set (kw0 :=
    {| rk_command := command a;
       rk_environment := py_or (environment a) (JList []);
       rk_detach := true;
       rk_ports := py_or (ports a) (JObj []);
       rk_publish_all_ports := publish_all_ports a;
       rk_remove := remove_ a;
       rk_volumes := py_or (volumes a) (JObj []);
       rk_extra := kwargs a |}).
  assert (Hsub : forall c, c ∈ new_calls w (run self image_spec a w).2 ->
                   c = FromEnv "auto"
                   \/ (c = ContainersRun image_spec kw0
                       /\ repeated_keyword (kwargs a) = None)).
  { unfold run, bind, request, new_container, ret, raise. fold kw0.
    destruct (sdk (FromEnv "auto") (daemon w)) as [[e | client] e1]; simpl.
    - rewrite (new_calls_app w _ [FromEnv "auto"]) by reflexivity.
      intros c Hc. apply list_elem_of_singleton in Hc. by left.
    - destruct (repeated_keyword (kwargs a)) as [key |] eqn:Hrep; simpl.
      { rewrite (new_calls_app w _ [FromEnv "auto"]) by reflexivity.
        intros c Hc. apply list_elem_of_singleton in Hc. by left. }
      assert (Hcalls : forall w', calls w' =
                ((calls w ++ [FromEnv "auto"]) ++ [ContainersRun image_spec kw0])%list ->
                forall c, c ∈ new_calls w w' ->
                c = FromEnv "auto"
                \/ (c = ContainersRun image_spec kw0 /\ @None string = None)).
      { intros w' Hw' c. rewrite (new_calls_app w w'
            [FromEnv "auto"; ContainersRun image_spec kw0])
          by (rewrite Hw'; by rewrite <- app_assoc).
        rewrite !elem_of_cons, elem_of_nil. tauto. }
      destruct (sdk (ContainersRun image_spec kw0) e1) as [[e | container] e2]; simpl.
      + by apply Hcalls.
      + destruct (getitem container "Id") as [e | [| | | i | |]]; simpl;
          by apply Hcalls. }
  intros Hin. destruct (Hsub _ Hin) as [Heq | [Heq Hrep]]; [discriminate |].
  inversion Heq; subst. subst kw0. simpl.
  unfold repeated_keyword in Hrep.
  destruct (assoc "detach" (kwargs a)); [discriminate |].
  destruct (assoc "image" (kwargs a)); [discriminate |].
  repeat split; try reflexivity; by apply py_or_not_none.
Qed.

(** X10.  A [run] that fails (no client, a repeated keyword, the engine
    refuses the container, an answer without an identifier) leaves the container objects as they
    were: no handle comes into being. *)
Theorem failed_run_creates_no_container
    (self : DockerEngine) (image_spec : string) (a : RunArgs) (e : exn) (w : World) :
  (run self image_spec a w).1 = inl e ->
  heap (run self image_spec a w).2 = heap w.
Proof.
  unfold run, bind, request, new_container, ret, raise.
  destruct (sdk (FromEnv "auto") (daemon w)) as [[e0 | client] e1]; simpl;
    [reflexivity |].
  destruct (repeated_keyword (kwargs a)) as [key |]; simpl; [reflexivity |].
  destruct (sdk (ContainersRun _ _) e1) as [[e0 | container] e2]; simpl;
    [reflexivity |].
  destruct (getitem container "Id") as [e0 | [| | | i | |]]; simpl;
    try reflexivity. discriminate.
Qed.

(** X11.  A successful [run] makes a new container object and touches no
    other: every handle handed out earlier still reads the attributes it
    cached, and the new handle differs from all of them. *)
Theorem run_keeps_other_handles
    (self : DockerEngine) (image_spec : string) (a : RunArgs)
    (h : DockerContainer) (w : World) :
  (run self image_spec a w).1 = inr h ->
  heap w !! _c h = None
  /\ (forall other : DockerContainer,
        is_Some (heap w !! _c other) ->
        _c other <> _c h
        /\ heap (run self image_spec a w).2 !! _c other = heap w !! _c other
        /\ (status other (run self image_spec a w).2).1 = (status other w).1
        /\ (exitcode other (run self image_spec a w).2).1 = (exitcode other w).1).
Proof.
  unfold run, bind, request, new_container, ret, raise.
  destruct (sdk (FromEnv "auto") (daemon w)) as [[e0 | client] e1]; simpl;
    [discriminate |].
  destruct (repeated_keyword (kwargs a)) as [key |]; simpl; [discriminate |].
  destruct (sdk (ContainersRun _ _) e1) as [[e0 | container] e2]; simpl;
    [discriminate |].
  destruct (getitem container "Id") as [e0 | [| | | i | |]]; simpl;
    try discriminate.
  intros Heq. inversion Heq; subst. simpl.
  assert (Hfresh : heap w !! fresh (dom (heap w)) = None)
    by (apply not_elem_of_dom, is_fresh).
  split; [exact Hfresh |]. intros other [c Hc].
  assert (Hne : _c other <> fresh (dom (heap w))) by congruence.
  assert (Hsame : <[fresh (dom (heap w)) := mkSdkContainer i container]> (heap w)
                    !! _c other = heap w !! _c other)
    by (by rewrite lookup_insert_ne).
  split; [exact Hne |]. split; [exact Hsame |].
  unfold status, sdk_status, exitcode, bind, deref, lift, ret. simpl.
  rewrite Hsame, Hc. simpl.
  destruct (getitem (attrs c) "State") as [e0 | st0]; simpl; [by split |].
  split; [by destruct st0 | by destruct (getitem st0 "ExitCode")].
Qed.

(** ** [__init__] *)

Lemma assoc_dict_set (k k' : string) (v : json) (d : list (string * json)) :
  assoc k (dict_set k' v d) = if String.eqb k k' then Some v else assoc k d.
Proof.
  induction d as [| [k0 v0] rest IH]; simpl.
  - reflexivity.
  - destruct (String.eqb_spec k' k0) as [-> | Hne]; simpl.
    + by destruct (String.eqb k k0).
    + rewrite IH. destruct (String.eqb_spec k k0) as [-> | Hne'];
        [| reflexivity].
      destruct (String.eqb_spec k0 k'); [congruence | reflexivity].
Qed.

Lemma assoc_not_key {A} (k : string) (d : list (string * A)) :
  k ∉ map fst d -> assoc k d = None.
Proof.
  induction d as [| [k0 v0] rest IH]; simpl; [reflexivity |].
  intros Hnot. destruct (String.eqb_spec k k0) as [-> | Hne].
  - exfalso. apply Hnot. constructor.
  - apply IH. intros Hin. apply Hnot. by constructor.
Qed.

(** After [d.update(other)] a key of [other] has the value [other] gives
    it, and any other key the value it had. *)
Lemma assoc_dict_update (k : string) (d other : list (string * json)) :
  NoDup (map fst other) ->
  assoc k (dict_update d other) =
  match assoc k other with
  | Some v => Some v
  | None => assoc k d
  end.
Proof.
  unfold dict_update. revert d.
  induction other as [| [k0 v0] rest IH]; intros d Hnd; simpl; [reflexivity |].
  inversion Hnd as [| ? ? Hnot Hnd']; subst.
  rewrite (IH _ Hnd'), assoc_dict_set.
  destruct (String.eqb_spec k k0) as [-> | Hne]; [| reflexivity].
  by rewrite (assoc_not_key k0 rest Hnot).
Qed.

(** X12.  The client is created with one request whose keywords are the
    ones derived from the environment, overridden key by key by
    [extra_init_args]; [version] is [auto] only when neither supplies
    one. *)
Theorem init_keyword_precedence
    (self : DockerEngine) (from_env : list (string * json)) (w : World) :
  NoDup (map fst (extra_init_args self)) ->
  exists kw,
    new_calls w (init self (inr from_env) w).2 = [NewAPIClient kw]
    /\ (forall k v, assoc k (extra_init_args self) = Some v -> assoc k kw = Some v)
    /\ (forall k, assoc k (extra_init_args self) = None -> k <> "version" ->
          assoc k kw = assoc k from_env)
    /\ assoc "version" kw =
       Some (match assoc "version" (extra_init_args self),
                   assoc "version" from_env with
             | Some v, _ => v
             | None, Some v => v
             | None, None => JStr "auto"
             end).
Proof.
  intros Hnd.
  set (merged := dict_update from_env (extra_init_args self)).
  exists (dict_setdefault "version" (JStr "auto") merged).
  assert (Hmerged : forall k, assoc k merged =
            match assoc k (extra_init_args self) with
            | Some v => Some v
            | None => assoc k from_env
            end) by (intros k; by apply assoc_dict_update).
  assert (Hdefault : forall k,
            assoc k (dict_setdefault "version" (JStr "auto") merged) =
            match assoc k merged with
            | Some v => Some v
            | None => if String.eqb k "version" then Some (JStr "auto") else None
            end).
  { intros k. unfold dict_setdefault.
    destruct (assoc "version" merged) as [v |] eqn:Hv.
    - destruct (assoc k merged) as [v' |] eqn:Hk; [reflexivity |].
      destruct (String.eqb_spec k "version") as [-> | Hne]; [congruence | reflexivity].
    - rewrite assoc_dict_set.
      destruct (String.eqb_spec k "version") as [-> | Hne].
      + by rewrite Hv.
      + by destruct (assoc k merged). }
  split; [| split; [| split]].
  - unfold init, request. fold merged.
    destruct (sdk _ (daemon w)) as [[e | j] e']; simpl;
      [destruct (is_docker_error e) |]; simpl; by apply new_calls_app.
  - intros k v Hk. by rewrite Hdefault, Hmerged, Hk.
  - intros k Hk Hne. rewrite Hdefault, Hmerged, Hk.
    destruct (assoc k from_env); [reflexivity |].
    by destruct (String.eqb_spec k "version").
  - rewrite Hdefault, Hmerged.
    destruct (assoc "version" (extra_init_args self)); [reflexivity |].
    by destruct (assoc "version" from_env).
Qed.

(** X13.  [__init__] never lets a docker error out: whether it comes from
    reading the environment or from creating the client, it is raised as a
    [ContainerEngineException] with the fixed hint and the original
    message; any other error is raised as it is. *)
Theorem init_wraps_docker_errors
    (self : DockerEngine) (from_env : exn + list (string * json))
    (e : exn) (w : World) :
  (init self from_env w).1 = inl e ->
  is_docker_error e = false
  /\ exists cause,
       (from_env = inl cause
        \/ exists kw e', sdk (NewAPIClient kw) (daemon w) = (inl cause, e'))
       /\ e = (if is_docker_error cause
               then ContainerEngineException
                      "Check if docker is running on the host." (describe cause)
               else cause).
Proof.
  unfold init, request.
  destruct from_env as [cause | kwargs0].
  - destruct (is_docker_error cause) eqn:Hdocker; simpl; intros Heq;
      injection Heq as <-.
    + split; [reflexivity |]. exists cause. rewrite Hdocker. split; [by left | reflexivity].
    + split; [exact Hdocker |]. exists cause. rewrite Hdocker. split; [by left | reflexivity].
  - destruct (sdk _ (daemon w)) as [[cause | j] e'] eqn:Hsdk; simpl; [| discriminate].
    destruct (is_docker_error cause) eqn:Hdocker; simpl; intros Heq;
      injection Heq as <-.
    + split; [reflexivity |]. exists cause. rewrite Hdocker.
      split; [right; eauto | reflexivity].
    + split; [exact Hdocker |]. exists cause. rewrite Hdocker.
      split; [right; eauto | reflexivity].
Qed.

(** ** [docker_login] and [push] with credentials *)

(** X14.  The temporary directory of [docker_login] lasts no longer than
    the push: once the sequence is consumed, the directory and all below it
    are gone, whether the copy, the login or the push failed or all went
    well. *)
Theorem push_login_dir_is_scoped
    (self : DockerEngine) (image_spec u p r : string) (w : World) :
  login_kwargs (registry_credentials self) = inr (u, p, r) ->
  let d := mkdtemp_name (fs w) in
  let w' := (consume (push_body self image_spec) w).2 in
  forall q, in_tree d q = true ->
    (q ∉ dirs (fs w')) /\ (files (fs w') !! q = None).
Proof.
  intros Hk d w' q Hq. subst w'.
  rewrite (consume_push_login self image_spec u p r w Hk), docker_login_unfold.
  fold d. cbv zeta.
  destruct (login_fs w) as [e | f2]; cbn -[rmtree]; [by apply rmtree_gone |].
  destruct (os_exec (login_command u p r) (environ w) f2) as [pr |]; cbn -[rmtree];
    [| by apply rmtree_gone].
  destruct (p_ret pr =? 0); cbn -[rmtree]; [| by apply rmtree_gone].
  rewrite consume_execute_cmd.
  destruct (os_exec (push_command image_spec) _ _) as [pp |]; cbn -[rmtree];
    by apply rmtree_gone.
Qed.

(** Making a directory does not change where a path name leads. *)
Lemma is_dir_mkdir (key d : string) (f : FS) :
  is_dir key f = true -> is_dir key (mkdir d f) = true.
Proof.
  unfold is_dir. intros [Hroot | Hin]%orb_true_iff; apply orb_true_iff;
    [by left | right].
  apply bool_decide_eq_true in Hin. apply bool_decide_eq_true. simpl. set_solver.
Qed.

Lemma walk_mkdir (f : FS) (d : string) (chain parts r : list string) :
  walk f chain parts = Some r -> walk (mkdir d f) chain parts = Some r.
Proof.
  revert chain. induction parts as [| part rest IH]; intros chain; simpl; [done |].
  destruct (is_dir (entry chain) f) eqn:Hd; [| discriminate].
  rewrite (is_dir_mkdir _ d _ Hd). apply IH.
Qed.

Lemma resolve_mkdir (f : FS) (d c p key : string) :
  resolve f c p = Some key -> resolve (mkdir d f) c p = Some key.
Proof.
  unfold resolve. destruct (walk f _ _) as [chain |] eqn:Hw; [| discriminate].
  intros [= <-]. by rewrite (walk_mkdir f d _ _ _ Hw).
Qed.

(** X15.  When [DOCKER_CONFIG] names a directory (which is how the docker
    client reads it; a trailing slash, [..] steps or an empty value, which
    [pathlib] reads as the working directory, included), [docker_login]
    tries to copy the directory as a file: [push] with credentials raises
    [IsADirectoryError] for the path name as [pathlib] holds it and
    launches neither the login nor the push. *)
Theorem push_config_directory_raises
    (self : DockerEngine) (image_spec u p r dir key : string) (w : World) :
  login_kwargs (registry_credentials self) = inr (u, p, r) ->
  environ w !! "DOCKER_CONFIG" = Some dir ->
  resolve (fs w) (cwd w) (Path dir) = Some key ->
  is_dir key (fs w) = true ->
  files (fs w) !! key = None ->
  exists w',
    consume (push_body self image_spec) w =
    ([], Raised (IsADirectoryError (Path dir)), w')
    /\ new_procs w w' = [].
Proof.
  intros Hk Henv Hres Hdir Hfile.
  rewrite (consume_push_login self image_spec u p r w Hk), docker_login_unfold.
  assert (Hfs : login_fs w = inl (IsADirectoryError (Path dir))).
  { unfold login_fs, docker_config_name, exists_, copy2, seen_from. rewrite Henv.
    cbv zeta.
    rewrite (resolve_mkdir _ _ _ _ _
               (resolve_mkdir _ (mkdtemp_name (fs w)) _ _ _ Hres)).
    cbn [files mkdir]. rewrite Hfile.
    rewrite (is_dir_mkdir _ _ _ (is_dir_mkdir _ (mkdtemp_name (fs w)) _ Hdir)).
    by rewrite orb_true_r. }
  cbv zeta. rewrite Hfs. eexists. split; [reflexivity | by apply new_procs_same].
Qed.

(** X16.  When the user has a configuration file, to which the path name
    leads, the login command is launched in the caller's environment on a
    file system where the temporary directory holds a copy of it, byte for
    byte. *)
Theorem login_gets_copy_of_user_config
    (self : DockerEngine) (image_spec u p r key content : string) (w : World) :
  login_kwargs (registry_credentials self) = inr (u, p, r) ->
  resolve (fs w) (cwd w) (docker_config_name w) = Some key ->
  files (fs w) !! key = Some content ->
  let d := mkdtemp_name (fs w) in
  exists sp rest,
    new_procs w (consume (push_body self image_spec) w).2 = sp :: rest
    /\ sp_argv sp = login_command u p r
    /\ sp_env sp = environ w
    /\ d ∈ dirs (sp_fs sp)
    /\ files (sp_fs sp) !! (d ++ "/config.json") = Some content.
Proof.
  intros Hk Hres Hcfg d.
  rewrite (consume_push_login self image_spec u p r w Hk), docker_login_unfold.
  assert (Hfs : login_fs w =
                inr (write_file (d ++ "/config.json") content (mkdir d (fs w)))).
  { unfold login_fs, exists_, copy2, seen_from. fold d. cbv zeta.
    rewrite (resolve_mkdir _ _ _ _ _ (resolve_mkdir _ d _ _ _ Hres)).
    cbn [files mkdir]. rewrite Hcfg.
    rewrite (bool_decide_eq_true_2 (is_Some (Some content))) by eauto.
    reflexivity. }
  cbv zeta. rewrite Hfs. fold d.
  set (f2 := write_file (d ++ "/config.json") content (mkdir d (fs w))).
  exists (mkSpawn (login_command u p r) (environ w) f2).
  assert (Hsp : d ∈ dirs f2 /\ files f2 !! (d ++ "/config.json") = Some content).
  { split; [simpl; set_solver | simpl; by rewrite lookup_insert_eq]. }
  destruct (os_exec (login_command u p r) (environ w) f2) as [pr |]; simpl.
  - destruct (p_ret pr =? 0); simpl.
    + rewrite consume_execute_cmd. simpl.
      exists [mkSpawn (push_command image_spec) (environ w) (p_effect pr f2)].
      destruct (os_exec (push_command image_spec) _ _) as [pp |]; simpl;
        (split; [apply new_procs_app; simpl; by rewrite <- app_assoc |]);
        (split; [reflexivity |]); (split; [reflexivity | exact Hsp]).
    + exists []. split; [by apply new_procs_app |].
      split; [reflexivity |]. split; [reflexivity | exact Hsp].
  - exists []. split; [by apply new_procs_app |].
    split; [reflexivity |]. split; [reflexivity | exact Hsp].
Qed.

(** X17.  When the login command exits non-zero, [push] raises its
    [CalledProcessError] at once: no line is produced and the push itself
    is never launched.  The command the error carries includes the
    password. *)
Theorem push_login_failure_stops_push
    (self : DockerEngine) (image_spec u p r : string) (f2 : FS) (pr : ProcRun)
    (w : World) :
  login_kwargs (registry_credentials self) = inr (u, p, r) ->
  login_fs w = inr f2 ->
  os_exec (login_command u p r) (environ w) f2 = Some pr ->
  p_ret pr <> 0 ->
  exists w',
    consume (push_body self image_spec) w =
    ([], Raised (CalledProcessError (p_ret pr) (login_command u p r)), w')
    /\ map sp_argv (new_procs w w') = [login_command u p r]
    /\ p ∈ login_command u p r.
Proof.
  intros Hk Hfs Hexec Hret.
  rewrite (consume_push_login self image_spec u p r w Hk), docker_login_unfold.
  cbv zeta. rewrite Hfs, Hexec.
  destruct (Z.eqb_spec (p_ret pr) 0) as [Hz | _]; [contradiction |].
  eexists. split; [reflexivity |]. split.
  - by rewrite (new_procs_app w _ [mkSpawn (login_command u p r) (environ w) f2]).
  - unfold login_command. set_solver.
Qed.

(** X18.  When the login command succeeds, the push is launched after it,
    in the same environment and on the file system the login left; the
    lines [push] yields are the push's output alone, and it ends as the
    push ends. *)
Theorem push_runs_after_login
    (self : DockerEngine) (image_spec u p r : string) (f2 : FS) (pr : ProcRun)
    (w : World) :
  login_kwargs (registry_credentials self) = inr (u, p, r) ->
  login_fs w = inr f2 ->
  os_exec (login_command u p r) (environ w) f2 = Some pr ->
  p_ret pr = 0 ->
  let '(lines, o, w') := consume (push_body self image_spec) w in
  new_procs w w' =
    [mkSpawn (login_command u p r) (environ w) f2;
     mkSpawn (push_command image_spec) (environ w) (p_effect pr f2)]
  /\ match os_exec (push_command image_spec) (environ w) (p_effect pr f2) with
     | None => lines = [] /\ o = Raised (OSError "cannot launch")
     | Some pp =>
         lines = p_out pp /\ o = exit_outcome (push_command image_spec) pp
     end.
Proof.
  intros Hk Hfs Hexec Hret.
  rewrite (consume_push_login self image_spec u p r w Hk), docker_login_unfold.
  cbv zeta. rewrite Hfs, Hexec, Hret. simpl Z.eqb. cbv iota.
  rewrite consume_execute_cmd. simpl environ. simpl fs.
  destruct (os_exec (push_command image_spec) (environ w) (p_effect pr f2))
    as [pp |]; simpl;
    (split; [apply new_procs_app; simpl; by rewrite <- app_assoc | by split]).
Qed.

(** X19.  A credentials dictionary that is not empty but whose keys are
    not exactly [username], [password] and [registry] cannot be bound to
    [docker_login]: [push] raises a [TypeError] and does nothing else. *)
Theorem push_malformed_credentials_raise
    (self : DockerEngine) (image_spec : string) (w : World) :
  registry_credentials self <> ∅ ->
  dom (registry_credentials self) <>
    ({[ "username"; "password"; "registry" ]} : gset string) ->
  exists msg,
    consume (push_body self image_spec) w = ([], Raised (TypeError msg), w).
Proof.
  intros Hne Hdom. unfold consume, next, push_body.
  rewrite bool_decide_eq_false_2 by assumption. simpl negb. cbv iota.
  unfold login_kwargs.
  destruct (registry_credentials self !! "username") as [u |] eqn:Hu;
    [| by eexists].
  destruct (registry_credentials self !! "password") as [p |] eqn:Hp;
    [| by eexists].
  destruct (registry_credentials self !! "registry") as [r |] eqn:Hr;
    [| by eexists].
  destruct (bool_decide (size (registry_credentials self) = 3%nat)) eqn:Hsize;
    [| by eexists].
  exfalso. apply Hdom. apply bool_decide_eq_true_1 in Hsize.
  symmetry. apply set_subseteq_size_eq.
  - intros k Hk. apply elem_of_dom.
    rewrite !elem_of_union, !elem_of_singleton in Hk.
    destruct Hk as [[-> | ->] | ->]; eauto.
  - rewrite size_dom, Hsize.
    assert (Hthree : size ({[ "username"; "password"; "registry" ]} : gset string)
                     = 3%nat) by reflexivity.
    rewrite Hthree. lia.
Qed.

(** ** The direct modes *)

End Further.

(** ** Instances of the further properties *)

Lemma logs_falsy_since_is_forwarded_witness :
  logs (H := ref_host) held_container true false (Some "") held_world =
  request (H := ref_host) (CLogs "c0ffee" true false (JStr "")) held_world.
Proof.
  apply (logs_falsy_since_is_forwarded (H := ref_host) held_container true false
           (Some "") (mkSdkContainer "c0ffee" (ref_container "running" 0)) held_world).
  - reflexivity.
  - by right.
Defined.

Lemma logs_unparsable_since_makes_no_request_witness :
  ref_parse_date "yesterday" = inl (ParseError "yesterday")
  /\ logs (H := ref_host) held_container false false (Some "yesterday") held_world =
     (inl (ParseError "yesterday"), held_world).
Proof.
  split; [reflexivity |].
  apply (logs_unparsable_since_makes_no_request (H := ref_host));
    reflexivity.
Defined.

Lemma since_rounds_toward_zero_witness :
  delta_us (mkDatetime 1969 12 31 23 59 58 250000 0) = -1750000
  /\ int_of_float (timestamp (mkDatetime 1969 12 31 23 59 58 250000 0)) =
     Z.quot (-1750000) 1000000.
Proof.
  split; [reflexivity |].
  apply (since_rounds_toward_zero (mkDatetime 1969 12 31 23 59 58 250000 0)).
  vm_compute. by split.
Defined.

Lemma lifecycle_calls_leave_snapshot_stale_witness :
  (stop (H := ref_host) held_container 10 held_world).1 = inr JNull
  /\ (status (H := ref_host) held_container
        (stop (H := ref_host) held_container 10 held_world).2).1 =
     (status (H := ref_host) held_container held_world).1.
Proof.
  pose proof (lifecycle_calls_leave_snapshot_stale (H := ref_host) held_container
                "KILL" 10 (mkSdkContainer "c0ffee" (ref_container "running" 0))
                held_world eq_refl) as Hall.
  apply Forall_cons_1 in Hall as [_ Hall].
  apply Forall_cons_1 in Hall as [(Hres & _ & Hstatus & _) _].
  split; [exact Hres | exact Hstatus].
Defined.

Lemma reload_refreshes_accessors_witness :
  let w1 := (wait (H := ref_host) held_container held_world).2 in
  (exitcode (H := ref_host) held_container
     (reload (H := ref_host) held_container w1).2).1 = inr (JInt 3)
  /\ (status (H := ref_host) held_container
        (reload (H := ref_host) held_container w1).2).1 = inr (JStr "exited").
Proof.
  intros w1.
  apply (reload_refreshes_accessors (H := ref_host) held_container
           (mkSdkContainer "c0ffee" (ref_container "running" 0))
           (ref_container "exited" 3)
           (JObj [("Status", JStr "exited"); ("ExitCode", JInt 3)])
           (1%nat : @engine ref_host) w1);
    [reflexivity | reflexivity | reflexivity | by eexists].
Defined.

Lemma failed_reload_keeps_snapshot_witness :
  (reload (H := refusing_host) held_container refusing_world).1 =
    inl (NotFound "c0ffee")
  /\ (status (H := refusing_host) held_container
        (reload (H := refusing_host) held_container refusing_world).2).1 =
     (status (H := refusing_host) held_container refusing_world).1.
Proof.
  destruct (failed_reload_keeps_snapshot (H := refusing_host) held_container
              (mkSdkContainer "c0ffee" (ref_container "running" 0))
              (NotFound "c0ffee") (O : @engine refusing_host) refusing_world
              eq_refl eq_refl) as (Hres & _ & _ & Hstatus).
  split; [exact Hres | exact Hstatus].
Defined.

Lemma exitcode_only_from_snapshot_witness :
  exists c st,
    heap held_world !! _c held_container = Some c
    /\ getitem (attrs c) "State" = inr st
    /\ getitem st "ExitCode" = inr (JInt 0).
Proof.
  apply (exitcode_only_from_snapshot (H := ref_host) held_container (JInt 0)
           held_world).
  reflexivity.
Defined.

Lemma images_projects_every_entry_witness :
  (images (H := ref_host) ref_engine ref_world).1 =
    inr [mkImage (JList [JStr "demo:1"]) JNull]
  /\ new_calls ref_world (images (H := ref_host) ref_engine ref_world).2 = [Images].
Proof.
  split; [reflexivity |].
  exact (proj1 (images_projects_every_entry (H := ref_host) ref_engine
                  [JObj [("RepoTags", JList [JStr "demo:1"])]]
                  (O : @engine ref_host) ref_world eq_refl)).
Defined.

Lemma run_request_is_well_formed_witness :
  let kw :=
    {| rk_command := JList [JStr "sh"]; rk_environment := JList [];
       rk_detach := true; rk_ports := JObj []; rk_publish_all_ports := false;
       rk_remove := false; rk_volumes := JObj []; rk_extra := [] |} in
  new_calls ref_world (run (H := ref_host) ref_engine "demo:1" ref_run_args ref_world).2 =
    [FromEnv "auto"; ContainersRun "demo:1" kw]
  /\ rk_environment kw <> JNull.
Proof.
  intros kw.
  assert (Hcalls : new_calls ref_world
            (run (H := ref_host) ref_engine "demo:1" ref_run_args ref_world).2 =
            [FromEnv "auto"; ContainersRun "demo:1" kw]) by reflexivity.
  split; [exact Hcalls |].
  destruct (run_request_is_well_formed (H := ref_host) ref_engine "demo:1"
              ref_run_args ref_world "demo:1" kw) as (_ & _ & Henv & _).
  - rewrite Hcalls. set_solver.
  - exact Henv.
Defined.

Lemma failed_run_creates_no_container_witness :
  (run (H := refusing_host) ref_engine "nope:1" ref_run_args refusing_world).1 =
    inl (ImageNotFound "nope:1")
  /\ heap (run (H := refusing_host) ref_engine "nope:1" ref_run_args
             refusing_world).2 = heap refusing_world.
Proof.
  split; [reflexivity |].
  apply (failed_run_creates_no_container (H := refusing_host) ref_engine "nope:1"
           ref_run_args (ImageNotFound "nope:1") refusing_world).
  reflexivity.
Defined.

Lemma run_keeps_other_handles_witness :
  (run (H := ref_host) ref_engine "demo:1" ref_run_args held_world).1 =
    inr (mkDockerContainer 1)
  /\ heap (run (H := ref_host) ref_engine "demo:1" ref_run_args held_world).2
       !! _c held_container = heap held_world !! _c held_container.
Proof.
  assert (Hrun : (run (H := ref_host) ref_engine "demo:1" ref_run_args held_world).1 =
                 inr (mkDockerContainer 1)) by reflexivity.
  split; [exact Hrun |].
  destruct (run_keeps_other_handles (H := ref_host) ref_engine "demo:1" ref_run_args
              (mkDockerContainer 1) held_world Hrun) as [_ Hothers].
  destruct (Hothers held_container) as (_ & Hsame & _); [by eexists | exact Hsame].
Defined.

Lemma init_keyword_precedence_witness :
  exists kw,
    new_calls ref_world
      (init (H := ref_host) pinned_engine
         (inr [("base_url", JStr "unix://var/run/docker.sock")]) ref_world).2 =
    [NewAPIClient kw]
    /\ assoc "version" kw = Some (JStr "1.41")
    /\ assoc "base_url" kw = Some (JStr "tcp://b:2375").
Proof.
  destruct (init_keyword_precedence (H := ref_host) pinned_engine
              [("base_url", JStr "unix://var/run/docker.sock")] ref_world)
    as (kw & Hcalls & Hextra & _ & Hversion).
  - simpl. apply NoDup_cons. split; [| apply NoDup_singleton].
    rewrite list_elem_of_singleton. discriminate.
  - exists kw. split; [exact Hcalls |]. split; [exact Hversion |].
    by apply Hextra.
Defined.

Lemma init_wraps_docker_errors_witness :
  (init (H := ref_host) ref_engine (inl (DockerException "bad TLS configuration"))
     ref_world).1 =
    inl (ContainerEngineException "Check if docker is running on the host."
           "bad TLS configuration")
  /\ is_docker_error
       (ContainerEngineException "Check if docker is running on the host."
          "bad TLS configuration") = false.
Proof.
  split; [reflexivity |].
  exact (proj1 (init_wraps_docker_errors (H := ref_host) ref_engine
                  (inl (DockerException "bad TLS configuration")) _ ref_world
                  eq_refl)).
Defined.

Lemma push_login_dir_is_scoped_witness :
  let w' := (consume (H := ref_host) (push_body ref_engine_login "reg.example/img:1")
               ref_world).2 in
  mkdtemp_name (fs ref_world) = "/tmp/tmp0"
  /\ ("/tmp/tmp0" ∉ dirs (fs w'))
  /\ files (fs w') !! "/tmp/tmp0/config.json" = None.
Proof.
  intros w'.
  assert (Hd : mkdtemp_name (fs ref_world) = "/tmp/tmp0") by (vm_compute; reflexivity).
  pose proof (push_login_dir_is_scoped (H := ref_host) ref_engine_login
                "reg.example/img:1" "u" "p" "reg.example" ref_world eq_refl) as Hgone.
  cbv zeta in Hgone. rewrite Hd in Hgone. fold w' in Hgone.
  split; [exact Hd |]. split.
  - exact (proj1 (Hgone "/tmp/tmp0" eq_refl)).
  - exact (proj2 (Hgone "/tmp/tmp0/config.json" eq_refl)).
Defined.

Lemma push_config_directory_raises_witness :
  (exists w',
     consume (H := ref_host) (push_body ref_engine_login "reg.example/img:1")
       config_dir_world =
     ([], Raised (IsADirectoryError "/root/.docker"), w')
     /\ new_procs config_dir_world w' = [])
  /\ (exists w',
        consume (H := ref_host) (push_body ref_engine_login "reg.example/img:1")
          empty_config_world =
        ([], Raised (IsADirectoryError "."), w')
        /\ new_procs empty_config_world w' = []).
Proof.
  split.
  - apply (push_config_directory_raises (H := ref_host) ref_engine_login
             "reg.example/img:1" "u" "p" "reg.example" "/root/.docker/"
             "/root/.docker" config_dir_world);
      [reflexivity | reflexivity | reflexivity | vm_compute; reflexivity
      | reflexivity].
  - apply (push_config_directory_raises (H := ref_host) ref_engine_login
             "reg.example/img:1" "u" "p" "reg.example" "" "/root"
             empty_config_world);
      [reflexivity | reflexivity | reflexivity | vm_compute; reflexivity
      | reflexivity].
Defined.

Lemma login_gets_copy_of_user_config_witness :
  exists sp rest,
    new_procs ref_world
      (consume (H := ref_host) (push_body ref_engine_login "reg.example/img:1")
         ref_world).2 = sp :: rest
    /\ sp_argv sp = login_command "u" "p" "reg.example"
    /\ sp_env sp = environ ref_world
    /\ mkdtemp_name (fs ref_world) ∈ dirs (sp_fs sp)
    /\ files (sp_fs sp) !! (mkdtemp_name (fs ref_world) ++ "/config.json") =
       Some "auth old.example x:y;".
Proof.
  apply (login_gets_copy_of_user_config (H := ref_host) ref_engine_login
           "reg.example/img:1" "u" "p" "reg.example" "/root/.docker/config.json"
           "auth old.example x:y;" ref_world);
    reflexivity.
Defined.

Lemma push_login_failure_stops_push_witness :
  exists w',
    consume (H := deny_host) (push_body ref_engine_login "reg.example/img:1")
      deny_world =
    ([], Raised (CalledProcessError 1 (login_command "u" "p" "reg.example")), w')
    /\ map sp_argv (new_procs deny_world w') = [login_command "u" "p" "reg.example"]
    /\ "p" ∈ login_command "u" "p" "reg.example".
Proof.
  destruct (login_fs (H := deny_host) deny_world) as [e | f2] eqn:Hfs;
    [vm_compute in Hfs; discriminate |].
  apply (push_login_failure_stops_push (H := deny_host) ref_engine_login
           "reg.example/img:1" "u" "p" "reg.example" f2
           {| p_out := ["Error response from daemon: unauthorized"]; p_ret := 1;
              p_effect := fun f' => f' |} deny_world);
    [reflexivity | exact Hfs | reflexivity | discriminate].
Defined.

Lemma push_runs_after_login_witness :
  map sp_argv
    (new_procs ref_world
       (consume (H := ref_host) (push_body ref_engine_login "reg.example/img:1")
          ref_world).2) =
  [login_command "u" "p" "reg.example"; push_command "reg.example/img:1"].
Proof.
  destruct (login_fs (H := ref_host) ref_world) as [e | f2] eqn:Hfs;
    [vm_compute in Hfs; discriminate |].
  pose proof (push_runs_after_login (H := ref_host) ref_engine_login
                "reg.example/img:1" "u" "p" "reg.example" f2 _ ref_world
                eq_refl Hfs eq_refl eq_refl) as Hrun.
  destruct (consume (H := ref_host) (push_body ref_engine_login "reg.example/img:1")
              ref_world) as [[lines o] w'].
  destruct Hrun as [Hprocs _]. simpl. by rewrite Hprocs.
Defined.

Lemma push_malformed_credentials_raise_witness :
  exists msg,
    consume (H := ref_host) (push_body partial_login_engine "reg.example/img:1")
      ref_world = ([], Raised (TypeError msg), ref_world).
Proof.
  apply (push_malformed_credentials_raise (H := ref_host) partial_login_engine
           "reg.example/img:1" ref_world).
  - intros Hempty.
    assert (Hu : registry_credentials partial_login_engine !! "username" = Some "u")
      by reflexivity.
    rewrite Hempty in Hu. discriminate.
  - intros Hdom.
    assert (Hr : "registry" ∈ dom (registry_credentials partial_login_engine))
      by (rewrite Hdom; set_solver).
    apply elem_of_dom in Hr as [v Hv]. vm_compute in Hv. discriminate.
Defined.
